(** * App.jsx: the request handlers of the 510(k) assistant front end

    A shallow embedding of the four asynchronous handlers of [App]
    ([handleSaveKeys], [handleTransformSubmission],
    [handleTransformChecklist], [handleRunReview]) and of the two helpers
    they share ([buildFormData], [postFormData]), followed by the
    properties of the orchestration layer.

    An [async] handler runs synchronously up to its first [await]; what
    follows the [await] runs later, when the network answers.  Each handler
    is therefore split in two functions: [*_start] (the state writes and the
    request issued by the click) and [*_finish] (the continuation, given
    what [fetch] and [res.json()] produced).  Between [await fetch(...)]
    and [await res.json()] a handler reads and writes nothing, so the two
    waits are delivered to the continuation as one answer. *)

From stdpp Require Import gmap strings list fin_maps.
From Stdlib Require Import ZArith.

Open Scope string_scope.
Set Warnings "-register-all".

(** ** JavaScript values *)

(** A parsed JSON document.  A number is kept as its canonical decimal text
    (the result of Number::toString), which fixes the double up to the sign
    of zero; the handlers only test numbers for truthiness and turn them
    into text. *)
Inductive json : Type :=
| JNull
| JBool (b : bool)
| JNum (repr : string)
| JStr (s : string)
| JArr (items : list json)
| JObj (props : gmap string json).

(** An uploaded [File]: the handlers pass it around without reading it. *)
Record file : Type := File { file_name : string; file_bytes : list Byte.byte }.

(** The values the handlers compute with. *)
Inductive value : Type :=
| Undefined
| Json (j : json)
| Blob (f : file).

Definition VStr (s : string) : value := Json (JStr s).
Definition VNull : value := Json JNull.

Definition string_truthy (s : string) : bool :=
  match s with EmptyString => false | String _ _ => true end.

(** ToBoolean on JSON values: [null], [false], [0], [NaN] and the empty
    string are falsy, objects and arrays are truthy. *)
Definition json_truthy (j : json) : bool :=
  match j with
  | JNull => false
  | JBool b => b
  | JNum r => negb (String.eqb r "0" || String.eqb r "NaN")
  | JStr s => string_truthy s
  | JArr _ => true
  | JObj _ => true
  end.

Definition truthy (v : value) : bool :=
  match v with
  | Undefined => false
  | Json j => json_truthy j
  | Blob _ => true
  end.

(** [a || b] *)
Definition js_or (a b : value) : value := if truthy a then a else b.

Infix "|||" := js_or (at level 50, left associativity).

Fixpoint join (sep : string) (l : list string) : string :=
  match l with
  | [] => ""
  | [x] => x
  | x :: rest => x +:+ sep +:+ join sep rest
  end.

(** ** Exceptions *)

(** The exceptions a handler can catch: a rejected [fetch], a body that
    [res.json()] cannot parse, a property read on [null], an object that
    cannot be turned into text, and the [Error] the handlers throw
    themselves. *)
Inductive js_error : Type :=
| FetchFailed (msg : string)
| SyntaxError (msg : string)
| NullRead (prop : string)
| NotPrimitive
| Error (msg : string).

(** [e.message].  The texts of the two TypeErrors are the engine's. *)
Definition message (e : js_error) : string :=
  match e with
  | FetchFailed m => m
  | SyntaxError m => m
  | NullRead p => "Cannot read properties of null (reading '" +:+ p +:+ "')"
  | NotPrimitive => "Cannot convert object to primitive value"
  | Error m => m
  end.

Inductive completion (A : Type) : Type :=
| Return (a : A)
| Throw (e : js_error).
Arguments Return {A} a.
Arguments Throw {A} e.

#[global] Instance completion_bind : MBind completion := fun A B k c =>
  match c with
  | Return a => k a
  | Throw e => Throw e
  end.

(** ToString on JSON values.  An object parsed from JSON is turned into
    text by [Object.prototype.toString] unless it has a property of its own
    named [toString]: no JSON value is callable, [valueOf] gives the object
    back, and the conversion throws a TypeError.  An array is joined with
    commas, a [null] element printed as the empty string, and an element
    that cannot be converted makes the whole conversion throw. *)
Fixpoint ToString (j : json) : completion string :=
  match j with
  | JNull => Return "null"
  | JBool true => Return "true"
  | JBool false => Return "false"
  | JNum r => Return r
  | JStr s => Return s
  | JArr items =>
      parts ← (fix elements (l : list json) : completion (list string) :=
                 match l with
                 | [] => Return []
                 | x :: rest =>
                     p ← match x with JNull => Return "" | _ => ToString x end;
                     ps ← elements rest;
                     Return (p :: ps)
                 end) items;
      Return (join "," parts)
  | JObj props =>
      match props !! "toString" with
      | Some _ => Throw NotPrimitive
      | None => Return "[object Object]"
      end
  end.

(** [new Error(v)] for a truthy JSON value [v] or a string: the message is
    [v] as text, and the construction throws when [v] has none. *)
Definition new_Error (v : value) : completion js_error :=
  match v with
  | Json j => m ← ToString j; Return (Error m)
  | Undefined => Return (Error "")
  | Blob _ => Return (Error "[object File]")
  end.

(** [data.k] for [k] one of [error], [result], [status]: none of them is an
    own property of an array, a string, a number or a boolean, nor on their
    prototypes, so only an object can have it; [null] has no properties
    at all. *)
Definition get (data : json) (k : string) : completion value :=
  match data with
  | JNull => Throw (NullRead k)
  | JObj props =>
      match props !! k with
      | Some j => Return (Json j)
      | None => Return Undefined
      end
  | _ => Return Undefined
  end.

(** ** The network *)

Inductive body : Type :=
| NotJson (msg : string)
| Parsed (data : json).

Record response : Type := Response { status_code : Z; resp_body : body }.

(** What an issued [fetch] comes back with. *)
Inductive fetch_outcome : Type :=
| Rejected (msg : string)
| Responded (res : response).

(** [res.ok] *)
Definition ok (res : response) : bool :=
  (200 <=? status_code res)%Z && (status_code res <=? 299)%Z.

(** [await res.json()] *)
Definition res_json (res : response) : completion json :=
  match resp_body res with
  | NotJson m => Throw (SyntaxError m)
  | Parsed data => Return data
  end.

(** [await fetch(...)] *)
Definition await_fetch (o : fetch_outcome) : completion response :=
  match o with
  | Rejected m => Throw (FetchFailed m)
  | Responded res => Return res
  end.

(** A [FormData] is the list of the pairs handed to [append], in order;
    how the browser encodes a value on the wire is not the component's
    business. *)
Definition FormData : Type := list (string * value).

Inductive request_body : Type :=
| Multipart (form : FormData)
| JsonText (doc : json).

Record request : Type := Request {
  url : string;
  method : string;
  headers : list (string * string);
  payload : request_body
}.

(** [JSON.stringify] of an object literal, as the document it denotes: a
    property whose value is [undefined] is left out, and of two properties
    with one name the later one counts. *)
Definition JSON_stringify (fields : list (string * value)) : json :=
  JObj (foldl (fun doc kv =>
                 match kv.2 with
                 | Undefined => delete kv.1 doc
                 | Json j => <[kv.1 := j]> doc
                 | Blob _ => <[kv.1 := JObj ∅]> doc
                 end) ∅ fields).

(** ** Helpers of [App] *)

Definition is_undefined (v : value) : bool :=
  match v with Undefined => true | _ => false end.

Definition is_null (v : value) : bool :=
  match v with Json JNull => true | _ => false end.

(** [formData.append(k, v)] *)
Definition append (formData : FormData) (k : string) (v : value) : FormData :=
  (formData ++ [(k, v)])%list.

(** [fields] stands for the object as [Object.entries(fields)] lists it:
    each property of its own once, in enumeration order (the order of the
    literal for the names the handlers use). *)
Definition buildFormData (fields : list (string * value)) : FormData :=
  foldl (fun formData kv =>
           if negb (is_undefined kv.2) && negb (is_null kv.2)
           then append formData kv.1 kv.2
           else formData) [] fields.

(** The part of [postFormData] that runs at the call: the request handed
    to [fetch]. *)
Definition postFormData_request (u : string) (formData : FormData) : request :=
  {| url := u; method := "POST"; headers := []; payload := Multipart formData |}.

(** The part of [postFormData] after [await fetch]. *)
Definition postFormData (u : string) (o : fetch_outcome) : completion json :=
  res ← await_fetch o;
  data ← res_json res;
  if negb (ok res) then
    err ← get data "error";
    e ← new_Error (err ||| VStr ("Request failed: " +:+ u));
    Throw e
  else Return data.

(** ** The state of [App] *)

(** The [useState] cells the request handlers read or write; [theme],
    [lang], [showKeys] and [selectedPainter] take no part in them. *)
Record state : Type := State {
  openaiKey : string;
  geminiKey : string;
  status : value;
  error : string;
  submissionText : string;
  submissionFile : option file;
  submissionModel : string;
  submissionResult : value;
  checklistText : string;
  checklistFile : option file;
  checklistModel : string;
  checklistResult : value;
  reviewSubmission : string;
  reviewChecklist : string;
  reviewModel : string;
  reviewResult : value
}.

Definition MODELS : list string :=
  ["gpt-4o-mini"; "gpt-4.1-mini"; "gemini-2.5-flash"; "gemini-3-flash-preview"].

(** [MODELS[0]] *)
Definition MODELS_0 : string := default "" (MODELS !! 0).

(** The state of the first render. *)
Definition initial : state :=
  {| openaiKey := ""; geminiKey := "";
     status := VStr "Idle"; error := "";
     submissionText := ""; submissionFile := None;
     submissionModel := MODELS_0; submissionResult := VStr "";
     checklistText := ""; checklistFile := None;
     checklistModel := MODELS_0; checklistResult := VStr "";
     reviewSubmission := ""; reviewChecklist := "";
     reviewModel := MODELS_0; reviewResult := VStr "" |}.

Definition setOpenaiKey (x : string) (s : state) : state :=
  State x (geminiKey s) (status s) (error s)
    (submissionText s) (submissionFile s) (submissionModel s) (submissionResult s)
    (checklistText s) (checklistFile s) (checklistModel s) (checklistResult s)
    (reviewSubmission s) (reviewChecklist s) (reviewModel s) (reviewResult s).

Definition setGeminiKey (x : string) (s : state) : state :=
  State (openaiKey s) x (status s) (error s)
    (submissionText s) (submissionFile s) (submissionModel s) (submissionResult s)
    (checklistText s) (checklistFile s) (checklistModel s) (checklistResult s)
    (reviewSubmission s) (reviewChecklist s) (reviewModel s) (reviewResult s).

Definition setStatus (x : value) (s : state) : state :=
  State (openaiKey s) (geminiKey s) x (error s)
    (submissionText s) (submissionFile s) (submissionModel s) (submissionResult s)
    (checklistText s) (checklistFile s) (checklistModel s) (checklistResult s)
    (reviewSubmission s) (reviewChecklist s) (reviewModel s) (reviewResult s).

Definition setError (x : string) (s : state) : state :=
  State (openaiKey s) (geminiKey s) (status s) x
    (submissionText s) (submissionFile s) (submissionModel s) (submissionResult s)
    (checklistText s) (checklistFile s) (checklistModel s) (checklistResult s)
    (reviewSubmission s) (reviewChecklist s) (reviewModel s) (reviewResult s).

Definition setSubmissionText (x : string) (s : state) : state :=
  State (openaiKey s) (geminiKey s) (status s) (error s)
    x (submissionFile s) (submissionModel s) (submissionResult s)
    (checklistText s) (checklistFile s) (checklistModel s) (checklistResult s)
    (reviewSubmission s) (reviewChecklist s) (reviewModel s) (reviewResult s).

Definition setSubmissionFile (x : option file) (s : state) : state :=
  State (openaiKey s) (geminiKey s) (status s) (error s)
    (submissionText s) x (submissionModel s) (submissionResult s)
    (checklistText s) (checklistFile s) (checklistModel s) (checklistResult s)
    (reviewSubmission s) (reviewChecklist s) (reviewModel s) (reviewResult s).

Definition setSubmissionModel (x : string) (s : state) : state :=
  State (openaiKey s) (geminiKey s) (status s) (error s)
    (submissionText s) (submissionFile s) x (submissionResult s)
    (checklistText s) (checklistFile s) (checklistModel s) (checklistResult s)
    (reviewSubmission s) (reviewChecklist s) (reviewModel s) (reviewResult s).

Definition setSubmissionResult (x : value) (s : state) : state :=
  State (openaiKey s) (geminiKey s) (status s) (error s)
    (submissionText s) (submissionFile s) (submissionModel s) x
    (checklistText s) (checklistFile s) (checklistModel s) (checklistResult s)
    (reviewSubmission s) (reviewChecklist s) (reviewModel s) (reviewResult s).

Definition setChecklistText (x : string) (s : state) : state :=
  State (openaiKey s) (geminiKey s) (status s) (error s)
    (submissionText s) (submissionFile s) (submissionModel s) (submissionResult s)
    x (checklistFile s) (checklistModel s) (checklistResult s)
    (reviewSubmission s) (reviewChecklist s) (reviewModel s) (reviewResult s).

Definition setChecklistFile (x : option file) (s : state) : state :=
  State (openaiKey s) (geminiKey s) (status s) (error s)
    (submissionText s) (submissionFile s) (submissionModel s) (submissionResult s)
    (checklistText s) x (checklistModel s) (checklistResult s)
    (reviewSubmission s) (reviewChecklist s) (reviewModel s) (reviewResult s).

Definition setChecklistModel (x : string) (s : state) : state :=
  State (openaiKey s) (geminiKey s) (status s) (error s)
    (submissionText s) (submissionFile s) (submissionModel s) (submissionResult s)
    (checklistText s) (checklistFile s) x (checklistResult s)
    (reviewSubmission s) (reviewChecklist s) (reviewModel s) (reviewResult s).

Definition setChecklistResult (x : value) (s : state) : state :=
  State (openaiKey s) (geminiKey s) (status s) (error s)
    (submissionText s) (submissionFile s) (submissionModel s) (submissionResult s)
    (checklistText s) (checklistFile s) (checklistModel s) x
    (reviewSubmission s) (reviewChecklist s) (reviewModel s) (reviewResult s).

Definition setReviewSubmission (x : string) (s : state) : state :=
  State (openaiKey s) (geminiKey s) (status s) (error s)
    (submissionText s) (submissionFile s) (submissionModel s) (submissionResult s)
    (checklistText s) (checklistFile s) (checklistModel s) (checklistResult s)
    x (reviewChecklist s) (reviewModel s) (reviewResult s).

Definition setReviewChecklist (x : string) (s : state) : state :=
  State (openaiKey s) (geminiKey s) (status s) (error s)
    (submissionText s) (submissionFile s) (submissionModel s) (submissionResult s)
    (checklistText s) (checklistFile s) (checklistModel s) (checklistResult s)
    (reviewSubmission s) x (reviewModel s) (reviewResult s).

Definition setReviewModel (x : string) (s : state) : state :=
  State (openaiKey s) (geminiKey s) (status s) (error s)
    (submissionText s) (submissionFile s) (submissionModel s) (submissionResult s)
    (checklistText s) (checklistFile s) (checklistModel s) (checklistResult s)
    (reviewSubmission s) (reviewChecklist s) x (reviewResult s).

Definition setReviewResult (x : value) (s : state) : state :=
  State (openaiKey s) (geminiKey s) (status s) (error s)
    (submissionText s) (submissionFile s) (submissionModel s) (submissionResult s)
    (checklistText s) (checklistFile s) (checklistModel s) (checklistResult s)
    (reviewSubmission s) (reviewChecklist s) (reviewModel s) x.

(** [file || undefined] for a cell that holds a [File] or [null]. *)
Definition file_or_undefined (f : option file) : value :=
  match f with
  | Some x => Blob x ||| Undefined
  | None => VNull ||| Undefined
  end.

(** The [catch] block shared by the four handlers. *)
Definition catch (e : js_error) (s : state) : state :=
  setStatus (VStr "Error") (setError (message e) s).

(** ** The handlers *)

Definition handleSaveKeys_start (s : state) : state * request :=
  let s1 := setError "" (setStatus (VStr "Saving keys") s) in
  (s1,
   {| url := "/set_api_keys"; method := "POST";
      headers := [("Content-Type", "application/json")];
      payload := JsonText (JSON_stringify
        [("openai", VStr (openaiKey s) ||| Undefined);
         ("gemini", VStr (geminiKey s) ||| Undefined)]) |}).

Definition handleSaveKeys_try (o : fetch_outcome) : completion value :=
  res ← await_fetch o;
  data ← res_json res;
  if negb (ok res) then
    err ← get data "error";
    e ← new_Error (err ||| VStr "Failed to save keys");
    Throw e
  else
    st ← get data "status";
    Return (st ||| VStr "saved").

Definition handleSaveKeys_finish (o : fetch_outcome) (s : state) : state :=
  match handleSaveKeys_try o with
  | Return st => setStatus st s
  | Throw e => catch e s
  end.

Definition handleTransformSubmission_start (s : state) : state * request :=
  let s1 := setError "" (setStatus (VStr "Transforming submission") s) in
  let formData := buildFormData
    [("pasted", VStr (submissionText s));
     ("model", VStr (submissionModel s));
     ("file", file_or_undefined (submissionFile s))] in
  (s1, postFormData_request "/transform_submission" formData).

(** [data.result || ""] *)
Definition result_or_empty (data : json) : completion value :=
  r ← get data "result";
  Return (r ||| VStr "").

Definition handleTransformSubmission_finish (o : fetch_outcome) (s : state) : state :=
  match data ← postFormData "/transform_submission" o; result_or_empty data with
  | Return r => setStatus (VStr "Idle") (setSubmissionResult r s)
  | Throw e => catch e s
  end.

Definition handleTransformChecklist_start (s : state) : state * request :=
  let s1 := setError "" (setStatus (VStr "Transforming checklist") s) in
  let formData := buildFormData
    [("pasted", VStr (checklistText s));
     ("model", VStr (checklistModel s));
     ("file", file_or_undefined (checklistFile s))] in
  (s1, postFormData_request "/transform_checklist" formData).

Definition handleTransformChecklist_finish (o : fetch_outcome) (s : state) : state :=
  match data ← postFormData "/transform_checklist" o; result_or_empty data with
  | Return r => setStatus (VStr "Idle") (setChecklistResult r s)
  | Throw e => catch e s
  end.

Definition handleRunReview_start (s : state) : state * request :=
  let s1 := setError "" (setStatus (VStr "Running review") s) in
  let submission := VStr (reviewSubmission s) ||| submissionResult s in
  let checklist := VStr (reviewChecklist s) ||| checklistResult s in
  let formData := buildFormData
    [("submission", submission);
     ("checklist", checklist);
     ("model", VStr (reviewModel s))] in
  (s1, postFormData_request "/run_review" formData).

Definition handleRunReview_finish (o : fetch_outcome) (s : state) : state :=
  match data ← postFormData "/run_review" o; result_or_empty data with
  | Return r => setStatus (VStr "Idle") (setReviewResult r s)
  | Throw e => catch e s
  end.

(** ** Stages and the event loop *)

Inductive stage : Type := Submission | Checklist | Review.

#[global] Instance stage_eq_dec : EqDecision stage.
Proof. solve_decision. Defined.

Inductive handler : Type :=
| SaveKeys
| Run (st : stage).

(** The endpoint, the "running" label and the result cell of a stage. *)
Definition endpoint (st : stage) : string :=
  match st with
  | Submission => "/transform_submission"
  | Checklist => "/transform_checklist"
  | Review => "/run_review"
  end.

Definition running (st : stage) : value :=
  match st with
  | Submission => VStr "Transforming submission"
  | Checklist => VStr "Transforming checklist"
  | Review => VStr "Running review"
  end.

Definition slot (st : stage) (s : state) : value :=
  match st with
  | Submission => submissionResult s
  | Checklist => checklistResult s
  | Review => reviewResult s
  end.

(** What the [try] block of a stage handler computes after the [await]. *)
Definition stage_try (st : stage) (o : fetch_outcome) : completion value :=
  data ← postFormData (endpoint st) o; result_or_empty data.

(** The [try] block of any of the four handlers after its [await]. *)
Definition handler_try (h : handler) (o : fetch_outcome) : completion value :=
  match h with
  | SaveKeys => handleSaveKeys_try o
  | Run st => stage_try st o
  end.

Definition start (h : handler) (s : state) : state * request :=
  match h with
  | SaveKeys => handleSaveKeys_start s
  | Run Submission => handleTransformSubmission_start s
  | Run Checklist => handleTransformChecklist_start s
  | Run Review => handleRunReview_start s
  end.

Definition finish (h : handler) (o : fetch_outcome) (s : state) : state :=
  match h with
  | SaveKeys => handleSaveKeys_finish o s
  | Run Submission => handleTransformSubmission_finish o s
  | Run Checklist => handleTransformChecklist_finish o s
  | Run Review => handleRunReview_finish o s
  end.

(** The [onChange] callbacks of the inputs. *)
Inductive edit : Type :=
| OpenaiKey (x : string)
| GeminiKey (x : string)
| SubmissionText (x : string)
| SubmissionFile (x : option file)
| SubmissionModel (x : string)
| ChecklistText (x : string)
| ChecklistFile (x : option file)
| ChecklistModel (x : string)
| ReviewSubmission (x : string)
| ReviewChecklist (x : string)
| ReviewModel (x : string).

Definition onChange (e : edit) : state -> state :=
  match e with
  | OpenaiKey x => setOpenaiKey x
  | GeminiKey x => setGeminiKey x
  | SubmissionText x => setSubmissionText x
  | SubmissionFile x => setSubmissionFile x
  | SubmissionModel x => setSubmissionModel x
  | ChecklistText x => setChecklistText x
  | ChecklistFile x => setChecklistFile x
  | ChecklistModel x => setChecklistModel x
  | ReviewSubmission x => setReviewSubmission x
  | ReviewChecklist x => setReviewChecklist x
  | ReviewModel x => setReviewModel x
  end.

(** A running page: the component state, the calls in flight (keyed by the
    position of their request in [sent]) and the requests issued so far. *)
Record session : Type := Session {
  app : state;
  pending : gmap nat handler;
  sent : list request
}.

Definition boot : session :=
  {| app := initial; pending := ∅; sent := [] |}.

(** What the event loop delivers: an edit of an input, a click on one of
    the four buttons, or the answer to a call in flight.  Nothing stops a
    click while a call of the same handler is in flight. *)
Inductive event : Type :=
| Change (e : edit)
| Click (h : handler)
| Settle (id : nat) (o : fetch_outcome).

Definition step (w : session) (ev : event) : session :=
  match ev with
  | Change e =>
      {| app := onChange e (app w); pending := pending w; sent := sent w |}
  | Click h =>
      let r := start h (app w) in
      {| app := r.1;
         pending := <[length (sent w) := h]> (pending w);
         sent := (sent w ++ [r.2])%list |}
  | Settle id o =>
      match pending w !! id with
      | Some h =>
          {| app := finish h o (app w);
             pending := delete id (pending w);
             sent := sent w |}
      | None => w
      end
  end.

Definition run (evs : list event) (w : session) : session := foldl step w evs.

(** ** Reading a request *)

(** [formData.get(k)]: the first value appended under [k]. *)
Fixpoint FormData_get (k : string) (formData : FormData) : option value :=
  match formData with
  | [] => None
  | (k', v) :: rest => if String.eqb k k' then Some v else FormData_get k rest
  end.

Definition form_of (r : request) : FormData :=
  match payload r with
  | Multipart form => form
  | JsonText _ => []
  end.

(** [hay.includes(needle)] *)
Fixpoint includes (needle hay : string) : bool :=
  String.prefix needle hay ||
  match hay with
  | EmptyString => false
  | String _ rest => includes needle rest
  end.

(** The status values of the specification: Idle, Running(stage), Error. *)
Definition spec_status (v : value) : Prop :=
  v = VStr "Idle" \/ (exists st, v = running st) \/ v = VStr "Error".

Definition is_string (v : value) : bool :=
  match v with Json (JStr _) => true | _ => false end.

(** A response whose status is outside 200..299, or no response at all. *)
Definition failed (o : fetch_outcome) : bool :=
  match o with
  | Rejected _ => true
  | Responded res => negb (ok res)
  end.

(** A value [x || ""] can take: never [undefined], [null] or another falsy
    value than the empty string. *)
Definition settled_value (v : value) : Prop :=
  truthy v = true \/ v = VStr "".

(** ** The file inputs *)

(** [e.target.files?.[0]]: [undefined] when there is no list or the list
    is empty. *)
Definition files_0 (files : option (list file)) : value :=
  match files with
  | None => Undefined
  | Some l =>
      match l !! 0 with
      | Some f => Blob f
      | None => Undefined
      end
  end.

(** [e.target.files?.[0] || null], as the content of a file cell. *)
Definition files_0_or_null (files : option (list file)) : option file :=
  match files_0 files ||| VNull with
  | Blob f => Some f
  | _ => None
  end.

(** ** Reading the state *)

(** The cells the user edits, and the cells the handlers write. *)
Definition inputs (s : state) :=
  (openaiKey s, geminiKey s,
   (submissionText s, submissionFile s, submissionModel s),
   (checklistText s, checklistFile s, checklistModel s),
   (reviewSubmission s, reviewChecklist s, reviewModel s)).

Definition outputs (s : state) :=
  (status s, error s, (submissionResult s, checklistResult s, reviewResult s)).

(** The setter of the result cell of a stage. *)
Definition setSlot (st : stage) : value -> state -> state :=
  match st with
  | Submission => setSubmissionResult
  | Checklist => setChecklistResult
  | Review => setReviewResult
  end.

Definition is_Change (ev : event) : bool :=
  match ev with Change _ => true | _ => false end.

(** ** One thing at a time *)

(** A use of the page in which every call is answered before anything else
    happens: an edit, or a click together with the answer to it. *)
Inductive action : Type :=
| Edit (e : edit)
| Call (h : handler) (o : fetch_outcome).

Definition perform (w : session) (a : action) : session :=
  match a with
  | Edit e => step w (Change e)
  | Call h o => step (step w (Click h)) (Settle (length (sent w)) o)
  end.

Definition perform_all (acts : list action) (w : session) : session :=
  foldl perform w acts.

(** ** The painter tiles *)

Definition PAINTERS : list string :=
  ["Van Gogh"; "Monet"; "Picasso"; "Da Vinci"; "Rembrandt"; "Matisse"; "Kandinsky";
   "Hokusai"; "Yayoi Kusama"; "Frida Kahlo"; "Salvador Dali"; "Rothko"; "Pollock";
   "Chagall"; "Basquiat"; "Haring"; "Georgia O'Keeffe"; "Turner"; "Seurat"; "Escher"].

(** The [className] of the tile of painter [p]. *)
Definition painter_className (selectedPainter p : string) : string :=
  "painter" +:+ (if String.eqb p selectedPainter then " painter-selected" else "").

(** The class names of the tiles, in the order they are rendered. *)
Definition painter_tiles (selectedPainter : string) : list string :=
  map (painter_className selectedPainter) PAINTERS.

(** * Properties *)

(** ** Helper lemmas *)

(** [buildFormData] keeps, in order, the fields that are neither
    [undefined] nor [null]. *)
Lemma buildFormData_filter (fields : list (string * value)) :
  buildFormData fields =
  List.filter (fun kv => negb (is_undefined kv.2) && negb (is_null kv.2)) fields.
Proof.
  unfold buildFormData.
  change (List.filter _ fields) with
    ([] ++ List.filter
       (fun kv : string * value => negb (is_undefined kv.2) && negb (is_null kv.2))
       fields)%list.
  generalize (@nil (string * value)) as acc.
  induction fields as [|[k v] rest IH]; intros acc; simpl.
  - by rewrite app_nil_r.
  - rewrite IH. destruct (negb (is_undefined v) && negb (is_null v)); simpl.
    + unfold append. by rewrite <- app_assoc.
    + done.
Qed.

Lemma settled_value_or (v : value) : settled_value (v ||| VStr "").
Proof.
  unfold settled_value, js_or.
  destruct (truthy v) eqn:E; [left | right]; done.
Qed.

Lemma settled_not_nullish (v : value) :
  settled_value v -> is_undefined v = false /\ is_null v = false.
Proof.
  intros [H | ->]; [| done].
  destruct v as [|[]|]; simpl in *; done.
Qed.

(** A property of sessions kept by every event holds along every run. *)
Lemma run_invariant (P : session -> Prop) :
  (forall w ev, P w -> P (step w ev)) ->
  forall evs w, P w -> P (run evs w).
Proof.
  intros Hstep evs. induction evs as [|ev evs IH]; intros w Hw; simpl.
  - exact Hw.
  - apply IH, Hstep, Hw.
Qed.

Lemma run_app (evs1 evs2 : list event) (w : session) :
  run (evs1 ++ evs2) w = run evs2 (run evs1 w).
Proof. unfold run. apply foldl_app. Qed.

(** An answer to a call in flight runs the continuation of its handler. *)
Lemma step_Settle (w : session) (id : nat) (o : fetch_outcome) (h : handler) :
  pending w !! id = Some h ->
  step w (Settle id o) =
  {| app := finish h o (app w); pending := delete id (pending w); sent := sent w |}.
Proof. intros H. unfold step. by rewrite H. Qed.

(** The writes of a stage continuation, case by case. *)
Lemma finish_Return (st : stage) (o : fetch_outcome) (r : value) (s : state) :
  stage_try st o = Return r ->
  slot st (finish (Run st) o s) = r /\
  status (finish (Run st) o s) = VStr "Idle" /\
  error (finish (Run st) o s) = error s /\
  (forall st', st' <> st -> slot st' (finish (Run st) o s) = slot st' s).
Proof.
  intros H. destruct st; simpl;
    unfold handleTransformSubmission_finish, handleTransformChecklist_finish,
      handleRunReview_finish;
    unfold stage_try in H; simpl in H; rewrite H; simpl;
    (repeat split; try done); intros []; simpl; done.
Qed.

Lemma finish_Throw (st : stage) (o : fetch_outcome) (e : js_error) (s : state) :
  stage_try st o = Throw e ->
  finish (Run st) o s = catch e s.
Proof.
  intros H. destruct st; simpl;
    unfold handleTransformSubmission_finish, handleTransformChecklist_finish,
      handleRunReview_finish;
    unfold stage_try in H; simpl in H; by rewrite H.
Qed.

Lemma catch_writes (e : js_error) (s : state) :
  status (catch e s) = VStr "Error" /\
  error (catch e s) = message e /\
  (forall st, slot st (catch e s) = slot st s).
Proof. repeat split; try done; by intros []. Qed.

(** No click and no edit writes a result cell. *)
Lemma start_slot (h : handler) (st : stage) (s : state) :
  slot st (start h s).1 = slot st s.
Proof. destruct h as [|[]], st; done. Qed.

Lemma onChange_slot (e : edit) (st : stage) (s : state) :
  slot st (onChange e s) = slot st s.
Proof. destruct e, st; done. Qed.

Lemma saveKeys_slot (o : fetch_outcome) (st : stage) (s : state) :
  slot st (handleSaveKeys_finish o s) = slot st s.
Proof.
  unfold handleSaveKeys_finish.
  destruct (handleSaveKeys_try o); destruct st; done.
Qed.

(** Every result cell holds the empty string or a truthy value, whatever
    happened before. *)
Lemma slots_settled (evs : list event) (st : stage) :
  settled_value (slot st (app (run evs boot))).
Proof.
  revert st.
  apply (run_invariant (fun w => forall st, settled_value (slot st (app w)))).
  - intros w ev IH st. destruct ev as [e | h | id o]; simpl.
    + rewrite onChange_slot. apply IH.
    + rewrite start_slot. apply IH.
    + destruct (pending w !! id) as [h|]; simpl; [| apply IH].
      destruct h as [| st0].
      * simpl. rewrite saveKeys_slot. apply IH.
      * destruct (stage_try st0 o) as [r | e] eqn:E.
        -- destruct (finish_Return st0 o r (app w) E) as (Hs & _ & _ & Ho).
           destruct (decide (st = st0)) as [-> | Hne].
           ++ rewrite Hs. unfold stage_try in E.
              destruct (postFormData (endpoint st0) o) as [data|]; simpl in E; [| done].
              unfold result_or_empty in E.
              destruct (get data "result") as [v|]; simpl in E; [| done].
              inversion E. apply settled_value_or.
           ++ rewrite Ho; [apply IH | done].
        -- rewrite (finish_Throw st0 o e (app w) E).
           destruct (catch_writes e (app w)) as (_ & _ & Hc). rewrite Hc. apply IH.
  - intros []; right; done.
Qed.

Lemma ok_range (code : Z) (b : body) :
  ok (Response code b) = true <-> (200 <= code <= 299)%Z.
Proof. unfold ok; simpl. rewrite andb_true_iff, !Z.leb_le. done. Qed.

(** The [try] block on a response whose body parses. *)
Lemma stage_try_ok (st : stage) (res : response) (data : json) :
  ok res = true -> resp_body res = Parsed data ->
  stage_try st (Responded res) = result_or_empty data.
Proof.
  intros Hok Hb. unfold stage_try, postFormData, res_json; simpl.
  rewrite Hb; simpl. rewrite Hok; simpl. done.
Qed.

Lemma stage_try_not_ok (st : stage) (res : response) (data : json) :
  ok res = false -> resp_body res = Parsed data ->
  stage_try st (Responded res) =
  (err ← get data "error";
   e ← new_Error (err ||| VStr ("Request failed: " +:+ endpoint st));
   Throw e).
Proof.
  intros Hok Hb. unfold stage_try, postFormData, res_json; simpl.
  rewrite Hb; simpl. rewrite Hok; simpl.
  destruct (get data "error") as [err |]; simpl; [| done].
  destruct (new_Error _); done.
Qed.

Lemma prefix_refl (x : string) : String.prefix x x = true.
Proof.
  induction x as [|a x IH]; simpl; [done |].
  destruct (Ascii.ascii_dec a a); [exact IH | congruence].
Qed.

(** A text that ends with [x] includes [x]. *)
Lemma includes_append (p x : string) : includes x (p +:+ x) = true.
Proof.
  induction p as [|c p IH]; simpl.
  - destruct x; simpl; [done |]. rewrite prefix_refl.
    destruct (Ascii.ascii_dec a a); [done | congruence].
  - rewrite IH. apply orb_true_r.
Qed.

(** ** The review request *)

(** C1.  Whenever [handleRunReview] is called, the [submission] field of
    the request to [/run_review] is the review stage's own text when that
    text is not empty, and the stored [submissionResult] when it is; the
    [checklist] field is [reviewChecklist] or else [checklistResult] in the
    same way.  With empty overrides and stored results "A" and "B" the
    request carries submission "A" and checklist "B"; a non-empty override
    is sent whatever [submissionResult] holds. *)
Theorem runReview_effective_inputs :
  (forall evs : list event,
     let s := app (run evs boot) in
     let r := (handleRunReview_start s).2 in
     sent (step (run evs boot) (Click (Run Review))) =
       (sent (run evs boot) ++ [r])%list /\
     url r = "/run_review" /\
     FormData_get "submission" (form_of r) =
       Some (if decide (reviewSubmission s = "") then submissionResult s
             else VStr (reviewSubmission s)) /\
     FormData_get "checklist" (form_of r) =
       Some (if decide (reviewChecklist s = "") then checklistResult s
             else VStr (reviewChecklist s))) /\
  (forall (s : state) (a b : string),
     let s' := setReviewSubmission "" (setReviewChecklist ""
                 (setSubmissionResult (VStr a) (setChecklistResult (VStr b) s))) in
     form_of (handleRunReview_start s').2 =
       [("submission", VStr a); ("checklist", VStr b); ("model", VStr (reviewModel s))]) /\
  (forall (s : state) (c : Ascii.ascii) (x : string),
     FormData_get "submission"
       (form_of (handleRunReview_start (setReviewSubmission (String c x) s)).2) =
     Some (VStr (String c x))).
Proof.
  split; [| split].
  - intros evs s r.
    pose proof (settled_not_nullish _ (slots_settled evs Submission)) as [Hu1 Hn1].
    pose proof (settled_not_nullish _ (slots_settled evs Checklist)) as [Hu2 Hn2].
    simpl in Hu1, Hn1, Hu2, Hn2. fold s in Hu1, Hn1, Hu2, Hn2.
    subst r. split; [reflexivity |]. unfold handleRunReview_start; simpl.
    split; [done |]. rewrite buildFormData_filter. unfold js_or; simpl.
    destruct (reviewSubmission s) as [|c1 x1]; simpl;
      destruct (reviewChecklist s) as [|c2 x2]; simpl;
      rewrite ?Hu1, ?Hn1, ?Hu2, ?Hn2; simpl; done.
  - intros s a b s'. subst s'. unfold handleRunReview_start; simpl.
    rewrite buildFormData_filter. unfold js_or; simpl. done.
  - intros s c x. unfold handleRunReview_start; simpl.
    rewrite buildFormData_filter. unfold js_or; simpl. done.
Qed.

(** ** The transform requests *)

(** C2 does not hold as stated: with a file attached and the pasted text
    "abc", the request of [handleTransformChecklist] carries the file and
    the pasted text. *)
Lemma transform_checklist_sends_pasted_with_file :
  let f := File "checklist.csv" [] in
  let s := setChecklistFile (Some f) (setChecklistText "abc" initial) in
  let form := form_of (handleTransformChecklist_start s).2 in
  FormData_get "file" form = Some (Blob f) /\
  FormData_get "pasted" form = Some (VStr "abc") /\
  FormData_get "pasted" form <> None.
Proof. vm_compute. repeat split; congruence. Qed.

(** C2, amended.  When a file is set, the request of either transform
    handler carries the pasted text, the model and the file, in this order:
    the pasted text is sent next to the file, not dropped.  With no file
    the [file] field is left out. *)
Theorem transform_request_fields (s : state) (f : file) :
  form_of (handleTransformSubmission_start (setSubmissionFile (Some f) s)).2 =
    [("pasted", VStr (submissionText s)); ("model", VStr (submissionModel s));
     ("file", Blob f)] /\
  form_of (handleTransformChecklist_start (setChecklistFile (Some f) s)).2 =
    [("pasted", VStr (checklistText s)); ("model", VStr (checklistModel s));
     ("file", Blob f)] /\
  form_of (handleTransformSubmission_start (setSubmissionFile None s)).2 =
    [("pasted", VStr (submissionText s)); ("model", VStr (submissionModel s))] /\
  form_of (handleTransformChecklist_start (setChecklistFile None s)).2 =
    [("pasted", VStr (checklistText s)); ("model", VStr (checklistModel s))].
Proof.
  unfold handleTransformSubmission_start, handleTransformChecklist_start; simpl.
  rewrite !buildFormData_filter. repeat split.
Qed.

(** ** Successful completion *)

(** C3.  When a stage call comes back with a 2xx status and a body whose
    [result] is the string [r], the result cell of that stage holds [r]
    as it came, and the status is "Idle". *)
Theorem transform_success_stores_result
    (st : stage) (s : state) (code : Z) (props : gmap string json) (r : string) :
  (200 <= code <= 299)%Z ->
  props !! "result" = Some (JStr r) ->
  let s' := finish (Run st) (Responded (Response code (Parsed (JObj props)))) s in
  slot st s' = VStr r /\ status s' = VStr "Idle".
Proof.
  intros Hcode Hr s'.
  assert (E : stage_try st (Responded (Response code (Parsed (JObj props)))) =
              Return (VStr r)).
  { rewrite (stage_try_ok st _ (JObj props)); [| by apply ok_range | done].
    unfold result_or_empty; simpl. rewrite Hr; simpl.
    unfold js_or; simpl. destruct r; done. }
  destruct (finish_Return st _ _ s E) as (H1 & H2 & _). done.
Qed.

Lemma transform_success_stores_result_witness :
  (200 <= 200 <= 299)%Z /\
  ({[ "result" := JStr "Organized: Hello" ]} : gmap string json) !! "result" =
    Some (JStr "Organized: Hello") /\
  let s' := finish (Run Submission)
              (Responded (Response 200
                 (Parsed (JObj {[ "result" := JStr "Organized: Hello" ]}))))
              (setSubmissionText "Hello" initial) in
  slot Submission s' = VStr "Organized: Hello" /\ status s' = VStr "Idle".
Proof.
  split; [lia |]. split; [apply lookup_singleton_eq |].
  apply (transform_success_stores_result Submission
           (setSubmissionText "Hello" initial) 200
           {[ "result" := JStr "Organized: Hello" ]} "Organized: Hello");
    [lia | apply lookup_singleton_eq].
Defined.

(** Scenario 1, from the first render to the answer. *)
Example scenario_pasted_hello :
  let answer := Responded (Response 200
                  (Parsed (JObj {[ "result" := JStr "Organized: Hello" ]}))) in
  let w := run [Change (SubmissionText "Hello"); Click (Run Submission)] boot in
  let w' := step w (Settle 0 answer) in
  form_of <$> sent w = [[("pasted", VStr "Hello"); ("model", VStr "gpt-4o-mini")]] /\
  submissionResult (app w') = VStr "Organized: Hello" /\
  status (app w') = VStr "Idle".
Proof. vm_compute. done. Qed.

(** ** Failed calls *)

(** A call that is rejected, or answered outside 200..299, leaves the [try]
    block by an exception. *)
Lemma failed_throws (st : stage) (o : fetch_outcome) :
  failed o = true -> exists e, stage_try st o = Throw e.
Proof.
  destruct o as [m | res]; simpl; intros Hf.
  - by exists (FetchFailed m).
  - apply negb_true_iff in Hf.
    destruct (resp_body res) as [m | data] eqn:Hb.
    + exists (SyntaxError m). unfold stage_try, postFormData, res_json; simpl.
      by rewrite Hb.
    + rewrite (stage_try_not_ok st res data Hf Hb).
      destruct (get data "error") as [v | e]; simpl; [| eauto].
      destruct (new_Error _) as [e | e]; simpl; eauto.
Qed.

(** C4.  When a stage call fails (no response, or a status outside
    200..299), no result cell changes, the status is "Error", and the error
    text is the message of the exception caught.  For a body [{}] that
    message is the generic one, which contains the endpoint path. *)
Theorem stage_failure_keeps_result (st : stage) (s : state) (o : fetch_outcome) :
  failed o = true ->
  let s' := finish (Run st) o s in
  (forall st', slot st' s' = slot st' s) /\
  status s' = VStr "Error" /\
  (exists e, stage_try st o = Throw e /\ error s' = message e) /\
  (forall res, o = Responded res -> resp_body res = Parsed (JObj ∅) ->
     error s' = "Request failed: " +:+ endpoint st /\
     includes (endpoint st) (error s') = true).
Proof.
  intros Hf s'. destruct (failed_throws st o Hf) as [e He].
  subst s'. rewrite (finish_Throw st o e s He).
  destruct (catch_writes e s) as (Hst & Herr & Hslots).
  split; [done |]. split; [done |]. split; [by exists e |].
  intros res -> Hb. simpl in Hf. apply negb_true_iff in Hf.
  rewrite (stage_try_not_ok st res _ Hf Hb) in He. simpl in He.
  rewrite lookup_empty in He. simpl in He. inversion He; subst e.
  split; [reflexivity |].
  apply (includes_append "Request failed: ").
Qed.

Lemma stage_failure_keeps_result_witness :
  let o := Responded (Response 500 (Parsed (JObj ∅))) in
  let s := setSubmissionResult (VStr "kept") initial in
  failed o = true /\
  let s' := finish (Run Submission) o s in
  (forall st', slot st' s' = slot st' s) /\
  status s' = VStr "Error" /\
  (exists e, stage_try Submission o = Throw e /\ error s' = message e) /\
  (forall res, o = Responded res -> resp_body res = Parsed (JObj ∅) ->
     error s' = "Request failed: " +:+ endpoint Submission /\
     includes (endpoint Submission) (error s') = true).
Proof.
  split; [reflexivity |].
  apply (stage_failure_keeps_result Submission
           (setSubmissionResult (VStr "kept") initial)
           (Responded (Response 500 (Parsed (JObj ∅))))).
  reflexivity.
Defined.

(** Scenario 3 evaluated. *)
Example scenario_http_500 :
  let s := setSubmissionResult (VStr "kept") initial in
  let s' := handleTransformSubmission_finish
              (Responded (Response 500 (Parsed (JObj ∅)))) s in
  error s' = "Request failed: /transform_submission" /\
  status s' = VStr "Error" /\
  submissionResult s' = VStr "kept".
Proof. vm_compute. done. Qed.

(** ** Failure messages *)

(** C5 does not hold as stated.  For [/set_api_keys] the generic message
    is "Failed to save keys", which does not name the endpoint; and an
    [error] field that is present but empty is not the message shown. *)
Lemma generic_message_without_endpoint :
  let s1 := handleSaveKeys_finish (Responded (Response 500 (Parsed (JObj ∅)))) initial in
  let s2 := handleTransformSubmission_finish
              (Responded (Response 500 (Parsed (JObj {[ "error" := JStr "" ]}))))
              initial in
  (error s1 = "Failed to save keys" /\
   includes "set_api_keys" (error s1) = false) /\
  (error s2 = "Request failed: /transform_submission" /\ error s2 <> "").
Proof. vm_compute. repeat split; congruence. Qed.

Lemma saveKeys_try_not_ok (res : response) (data : json) :
  ok res = false -> resp_body res = Parsed data ->
  handleSaveKeys_try (Responded res) =
  (err ← get data "error";
   e ← new_Error (err ||| VStr "Failed to save keys");
   Throw e).
Proof.
  intros Hok Hb. unfold handleSaveKeys_try, res_json; simpl.
  rewrite Hb; simpl. rewrite Hok; simpl. done.
Qed.

(** The only exception a conversion to text raises is the TypeError for an
    object that has no primitive value. *)
Lemma ToString_Throw : forall (j : json) (e : js_error),
  ToString j = Throw e -> e = NotPrimitive.
Proof.
  fix IH 1. intros [| [] | r | s | items | props] e; simpl; try discriminate.
  - match goal with
    | |- (?F items ≫= _) = _ -> _ =>
        assert (G : forall e', F items = Throw e' -> e' = NotPrimitive)
    end.
    { clear e. revert items. fix IHl 1. intros [| x rest] e'; [discriminate |].
      simpl.
      destruct (match x with JNull => Return "" | _ => ToString x end)
        as [p | ex] eqn:Ex; simpl.
      - intros H. apply (IHl rest e').
        match goal with
        | |- ?c = _ => destruct c; [discriminate H | exact H]
        end.
      - intros [= <-]. pose proof (IH x ex) as Hx.
        destruct x; try discriminate Ex; exact (Hx Ex). }
    match goal with
    | |- (?c ≫= _) = _ -> _ => destruct c as [parts | e'] eqn:E
    end; [discriminate |].
    simpl. intros [= <-]. by apply G.
  - destruct (props !! "toString"); [by intros [= <-] | discriminate].
Qed.

(** C5, amended.  For a response with a status outside 200..299 whose body
    parses and whose [error] field reads as [v]: when [v] is missing,
    [null], empty or otherwise falsy, the failure message is
    "Request failed: " followed by the endpoint for the three stage
    endpoints, and the fixed text "Failed to save keys" for
    [/set_api_keys]; when [v] is truthy the message is [v] as text (a
    non-empty string is shown as it is, an object with no [toString]
    property of its own reads "[object Object]"), and when [v] has no text
    (an object with a property named [toString], or an array that holds
    one) it is the TypeError "Cannot convert object to primitive value". *)
Theorem failure_message_of_non_success (res : response) (data : json) (v : value) :
  ok res = false ->
  resp_body res = Parsed data ->
  get data "error" = Return v ->
  let shown := match new_Error v with Return e => message e | Throw e => message e end in
  (forall st s,
     error (finish (Run st) (Responded res) s) =
       if truthy v then shown else "Request failed: " +:+ endpoint st) /\
  (forall s,
     error (handleSaveKeys_finish (Responded res) s) =
       if truthy v then shown else "Failed to save keys") /\
  (forall m, v = VStr m -> shown = m) /\
  (forall j m, v = Json j -> ToString j = Return m -> shown = m) /\
  (forall j e, v = Json j -> ToString j = Throw e ->
     shown = "Cannot convert object to primitive value") /\
  (forall props, v = Json (JObj props) ->
     shown = match props !! "toString" with
             | Some _ => "Cannot convert object to primitive value"
             | None => "[object Object]"
             end) /\
  (forall st, includes (endpoint st) ("Request failed: " +:+ endpoint st) = true).
Proof.
  intros Hok Hb Hv shown.
  split; [| split; [| split; [| split; [| split; [| split]]]]].
  - intros st s.
    pose proof (stage_try_not_ok st res data Hok Hb) as E.
    rewrite Hv in E. simpl in E. subst shown. unfold js_or in E.
    destruct (truthy v).
    + destruct (new_Error v) as [e | e]; simpl in E;
        by rewrite (finish_Throw st _ _ s E).
    + simpl in E. by rewrite (finish_Throw st _ _ s E).
  - intros s. unfold handleSaveKeys_finish.
    rewrite (saveKeys_try_not_ok res data Hok Hb), Hv. simpl.
    subst shown. unfold js_or. destruct (truthy v); [| done].
    destruct (new_Error v); done.
  - intros m ->. done.
  - intros j m -> Hj. subst shown. simpl. by rewrite Hj.
  - intros j e -> Hj. subst shown. simpl. rewrite Hj. simpl.
    by rewrite (ToString_Throw j e Hj).
  - intros props ->. subst shown. simpl. by destruct (props !! "toString").
  - intros st. apply includes_append.
Qed.

Lemma failure_message_of_non_success_witness :
  let data := JObj {[ "error" := JObj {[ "toString" := JNum "1" ]} ]} in
  let v := Json (JObj {[ "toString" := JNum "1" ]}) in
  let res := Response 500 (Parsed data) in
  ok res = false /\
  resp_body res = Parsed data /\
  get data "error" = Return v /\
  ToString (JObj {[ "toString" := JNum "1" ]}) = Throw NotPrimitive /\
  match new_Error v with Return e => message e | Throw e => message e end =
    "Cannot convert object to primitive value" /\
  error (finish (Run Submission) (Responded res) initial) =
    "Cannot convert object to primitive value".
Proof.
  assert (Hg : get (JObj {[ "error" := JObj {[ "toString" := JNum "1" ]} ]}) "error" =
               Return (Json (JObj {[ "toString" := JNum "1" ]}))) by reflexivity.
  assert (Ht : ToString (JObj {[ "toString" := JNum "1" ]}) = Throw NotPrimitive)
    by reflexivity.
  split; [reflexivity |]. split; [reflexivity |]. split; [exact Hg |].
  split; [exact Ht |].
  destruct (failure_message_of_non_success
              (Response 500
                 (Parsed (JObj {[ "error" := JObj {[ "toString" := JNum "1" ]} ]})))
              _ _ eq_refl eq_refl Hg) as (H1 & _ & _ & _ & H5 & _).
  pose proof (H5 _ _ eq_refl Ht) as Hs.
  split; [exact Hs |].
  rewrite (H1 Submission initial). exact Hs.
Defined.

(** ** Fields left out of a request *)

(** C6.  [buildFormData] appends exactly the fields whose value is neither
    [undefined] nor [null]; the JSON body of [/set_api_keys] has an
    [openai] (a [gemini]) property exactly when that key is not empty and
    never holds a [null]; with only the OpenAI key set the body is
    [{openai: key}] and has no [gemini] property. *)
Theorem nullish_fields_omitted :
  (forall (fields : list (string * value)) (k : string) (v : value),
     (k, v) ∈ buildFormData fields <->
     (k, v) ∈ fields /\ v <> Undefined /\ v <> VNull) /\
  (forall s : state,
     exists doc : gmap string json,
       payload (handleSaveKeys_start s).2 = JsonText (JObj doc) /\
       doc !! "openai" =
         (if decide (openaiKey s = "") then None else Some (JStr (openaiKey s))) /\
       doc !! "gemini" =
         (if decide (geminiKey s = "") then None else Some (JStr (geminiKey s))) /\
       (forall k, doc !! k <> Some JNull)) /\
  (forall (s : state) (c : Ascii.ascii) (key : string),
     payload (handleSaveKeys_start
                (setGeminiKey "" (setOpenaiKey (String c key) s))).2 =
     JsonText (JObj {[ "openai" := JStr (String c key) ]})).
Proof.
  split; [| split].
  - intros fields k v. rewrite buildFormData_filter, !list_elem_of_In, filter_In.
    simpl. rewrite andb_true_iff, !negb_true_iff.
    split; intros (Hin & H); (split; [exact Hin |]).
    + destruct H as [Hu Hn]. split; intros ->; done.
    + destruct H as [Hu Hn]. destruct v as [|[]|]; done.
  - intros s. eexists. split; [reflexivity |].
    unfold js_or; simpl.
    destruct (openaiKey s) as [|c1 k1]; destruct (geminiKey s) as [|c2 k2]; simpl;
      (split; [| split]); simplify_map_eq; try done;
      intros k; rewrite ?lookup_insert, ?lookup_delete;
      repeat case_decide; rewrite ?lookup_insert, ?lookup_delete, ?lookup_empty;
      repeat case_decide; done.
  - intros s c key. unfold handleSaveKeys_start, JSON_stringify, js_or; simpl.
    rewrite delete_insert_ne by done. rewrite delete_empty. done.
Qed.

(** ** The status cell *)

(** C7 does not hold as stated: a click on "Save Keys" sets the status to
    "Saving keys", and its successful answer sets it to the service's
    [status] field or to "saved"; neither is Idle, Running(stage) or
    Error.  And a successful answer [{status: "Idle"}] brings the status
    back to "Idle" although no stage call has completed. *)
Lemma saveKeys_status_outside_spec :
  let w := run [Click SaveKeys] boot in
  let w' := step w (Settle 0 (Responded (Response 200 (Parsed (JObj ∅))))) in
  let w'' := step w (Settle 0 (Responded (Response 200
                 (Parsed (JObj {[ "status" := JStr "Idle" ]}))))) in
  (status (app w) = VStr "Saving keys" /\ ~ spec_status (status (app w))) /\
  (status (app w') = VStr "saved" /\ ~ spec_status (status (app w'))) /\
  (status (app w) <> VStr "Idle" /\ status (app w'') = VStr "Idle" /\
   pending w !! 0 = Some SaveKeys).
Proof.
  assert (E1 : status (app (run [Click SaveKeys] boot)) = VStr "Saving keys")
    by reflexivity.
  assert (E2 : status (app (step (run [Click SaveKeys] boot)
                 (Settle 0 (Responded (Response 200 (Parsed (JObj ∅))))))) =
               VStr "saved") by (vm_compute; reflexivity).
  assert (E3 : status (app (step (run [Click SaveKeys] boot)
                 (Settle 0 (Responded (Response 200
                    (Parsed (JObj {[ "status" := JStr "Idle" ]}))))))) =
               VStr "Idle") by (vm_compute; reflexivity).
  cbv zeta. rewrite E1, E2, E3. unfold spec_status.
  split; [| split].
  - split; [reflexivity |]. intros [H | [[[] H] | H]]; discriminate H.
  - split; [reflexivity |]. intros [H | [[[] H] | H]]; discriminate H.
  - split; [discriminate |]. split; [reflexivity |]. vm_compute. reflexivity.
Qed.

Lemma spec_status_running (st : stage) : spec_status (running st).
Proof. right; left. by exists st. Qed.

(** The status writes of the stage handlers. *)
Lemma start_status (st : stage) (s : state) :
  status (start (Run st) s).1 = running st.
Proof. by destruct st. Qed.

Lemma finish_status (st : stage) (o : fetch_outcome) (s : state) :
  status (finish (Run st) o s) =
  match stage_try st o with
  | Return _ => VStr "Idle"
  | Throw _ => VStr "Error"
  end.
Proof.
  destruct (stage_try st o) as [r | e] eqn:E.
  - by destruct (finish_Return st o r s E) as (_ & H & _).
  - by rewrite (finish_Throw st o e s E).
Qed.

Lemma onChange_status (e : edit) (s : state) : status (onChange e s) = status s.
Proof. by destruct e. Qed.

(** Without a click on "Save Keys" no key-saving call is ever in flight,
    and the status stays within the three kinds of the specification. *)
Lemma stage_run_status (evs : list event) (w : session) :
  Forall (fun ev => ev <> Click SaveKeys) evs ->
  spec_status (status (app w)) ->
  (forall id, pending w !! id <> Some SaveKeys) ->
  spec_status (status (app (run evs w))) /\
  (forall id, pending (run evs w) !! id <> Some SaveKeys).
Proof.
  intros Hevs. revert w.
  induction Hevs as [| ev evs Hev _ IH]; intros w Hs Hp; [done |].
  simpl. apply IH; destruct ev as [e | h | id o]; cbn -[finish start].
  - by rewrite onChange_status.
  - destruct h as [| st]; [done |]. rewrite start_status. apply spec_status_running.
  - destruct (pending w !! id) as [[| st] |] eqn:E; cbn -[finish start]; try done.
    + by apply Hp in E.
    + rewrite finish_status. destruct (stage_try st o); [by left | by right; right].
  - done.
  - intros id. rewrite lookup_insert. case_decide; [| apply Hp].
    destruct h; [done | discriminate].
  - destruct (pending w !! id) as [h |] eqn:E; cbn -[finish start]; [| done].
    intros id'. rewrite lookup_delete. case_decide; [done | apply Hp].
Qed.

(** The status a key-saving answer leaves, answer by answer. *)
Lemma saveKeys_finish_status (o : fetch_outcome) (s : state) :
  status (handleSaveKeys_finish o s) =
  match o with
  | Rejected _ => VStr "Error"
  | Responded res =>
      match resp_body res with
      | NotJson _ => VStr "Error"
      | Parsed data =>
          if ok res then
            match get data "status" with
            | Return x => x ||| VStr "saved"
            | Throw _ => VStr "Error"
            end
          else VStr "Error"
      end
  end.
Proof.
  unfold handleSaveKeys_finish, handleSaveKeys_try.
  destruct o as [m | res]; simpl; [done |].
  unfold res_json. destruct (resp_body res) as [m | data]; simpl; [done |].
  destruct (ok res); simpl.
  - destruct (get data "status"); done.
  - destruct (get data "error") as [err |]; simpl; [| done].
    destruct (new_Error _); done.
Qed.

Lemma saveKeys_finish_try (o : fetch_outcome) (s : state) :
  status (handleSaveKeys_finish o s) =
  match handleSaveKeys_try o with
  | Return v => v
  | Throw _ => VStr "Error"
  end.
Proof. unfold handleSaveKeys_finish. by destruct (handleSaveKeys_try o). Qed.

(** C7, amended.  At every point of every sequence of edits, clicks and
    answers the status is "Idle", the running label of a stage, "Error",
    "Saving keys", or the value written by a successful key save.  Edits
    never write it.  From any state a click on a stage button writes the
    running label of the stage, and the answer to a stage call writes
    "Idle" when the call succeeds and "Error" when it fails, so a run with
    no click on "Save Keys" stays within the three kinds.  A click on
    "Save Keys" writes "Saving keys"; the answer to it writes the service's
    [status] field when truthy, else "saved", for a 2xx response whose body
    parses to a JSON value other than [null], and "Error" for every other
    answer.  The status comes back to "Idle" only by the successful answer
    to a stage call, or by a successful key save whose [status] field is
    "Idle". *)
Theorem status_values :
  (forall evs : list event,
     let v := status (app (run evs boot)) in
     spec_status v \/ v = VStr "Saving keys" \/
     exists o, handleSaveKeys_try o = Return v) /\
  (forall evs : list event,
     Forall (fun e => e <> Click SaveKeys) evs ->
     spec_status (status (app (run evs boot)))) /\
  (forall (w : session) (e : edit),
     status (app (step w (Change e))) = status (app w)) /\
  (forall (w : session) (st : stage),
     status (app (step w (Click (Run st)))) = running st) /\
  (forall (w : session) (id : nat) (o : fetch_outcome) (st : stage),
     pending w !! id = Some (Run st) ->
     status (app (step w (Settle id o))) =
       match stage_try st o with
       | Return _ => VStr "Idle"
       | Throw _ => VStr "Error"
       end) /\
  (forall w : session,
     status (app (step w (Click SaveKeys))) = VStr "Saving keys") /\
  (forall (w : session) (id : nat) (o : fetch_outcome),
     pending w !! id = Some SaveKeys ->
     status (app (step w (Settle id o))) =
       match o with
       | Rejected _ => VStr "Error"
       | Responded res =>
           match resp_body res with
           | NotJson _ => VStr "Error"
           | Parsed data =>
               if ok res then
                 match get data "status" with
                 | Return x => x ||| VStr "saved"
                 | Throw _ => VStr "Error"
                 end
               else VStr "Error"
           end
       end) /\
  (forall (w : session) (ev : event),
     status (app w) <> VStr "Idle" ->
     status (app (step w ev)) = VStr "Idle" ->
     exists id o,
       ev = Settle id o /\
       ((exists st r, pending w !! id = Some (Run st) /\ stage_try st o = Return r) \/
        (pending w !! id = Some SaveKeys /\
         handleSaveKeys_try o = Return (VStr "Idle")))).
Proof.
  split; [| split; [| split; [| split; [| split; [| split; [| split]]]]]].
  - intros evs. cbv zeta.
    apply (run_invariant (fun w =>
      spec_status (status (app w)) \/ status (app w) = VStr "Saving keys" \/
      exists o, handleSaveKeys_try o = Return (status (app w)))).
    + intros w ev IH. destruct ev as [e | [| st] | id o]; cbn -[finish start].
      * by rewrite onChange_status.
      * right; left. reflexivity.
      * left. rewrite start_status. apply spec_status_running.
      * destruct (pending w !! id) as [[| st] |]; cbn -[finish]; [| | exact IH].
        -- simpl. rewrite saveKeys_finish_try.
           destruct (handleSaveKeys_try o) as [v | e] eqn:E.
           ++ right; right. by exists o.
           ++ left. by right; right.
        -- left. rewrite finish_status.
           destruct (stage_try st o); [by left | by right; right].
    + left. by left.
  - intros evs Hevs.
    apply (stage_run_status evs boot Hevs); [by left |].
    intros id. change (pending boot) with (∅ : gmap nat handler).
    by rewrite lookup_empty.
  - intros w e. cbn -[onChange]. apply onChange_status.
  - intros w st. cbn -[start]. apply start_status.
  - intros w id o st H. rewrite (step_Settle w id o _ H). cbn -[finish].
    apply finish_status.
  - intros w. reflexivity.
  - intros w id o H. rewrite (step_Settle w id o _ H). simpl.
    apply saveKeys_finish_status.
  - intros w ev Hne Hidle. destruct ev as [e | h | id o]; cbn -[finish start] in Hidle.
    + rewrite onChange_status in Hidle. done.
    + destruct h as [| st]; [discriminate Hidle |].
      rewrite start_status in Hidle. destruct st; discriminate.
    + destruct (pending w !! id) as [[| st] |] eqn:E; cbn -[finish start] in Hidle.
      * exists id, o. split; [done |]. right. split; [done |].
        simpl in Hidle. rewrite saveKeys_finish_try in Hidle.
        destruct (handleSaveKeys_try o) as [v | e]; [by subst | discriminate].
      * exists id, o. split; [done |]. left.
        rewrite finish_status in Hidle.
        destruct (stage_try st o) as [r | e] eqn:Et; [| discriminate].
        by exists st, r.
      * done.
Qed.

Lemma status_values_witness :
  let w := run [Click SaveKeys; Click (Run Submission)] boot in
  let ev := Settle 1 (Responded (Response 200
              (Parsed (JObj {[ "result" := JStr "Organized: Hello" ]})))) in
  status (app w) <> VStr "Idle" /\
  status (app (step w ev)) = VStr "Idle" /\
  exists id o,
    ev = Settle id o /\
    ((exists st r, pending w !! id = Some (Run st) /\ stage_try st o = Return r) \/
     (pending w !! id = Some SaveKeys /\
      handleSaveKeys_try o = Return (VStr "Idle"))).
Proof.
  assert (H1 : status (app (run [Click SaveKeys; Click (Run Submission)] boot)) <>
               VStr "Idle") by (vm_compute; discriminate).
  assert (H2 : status (app (step (run [Click SaveKeys; Click (Run Submission)] boot)
                 (Settle 1 (Responded (Response 200
                    (Parsed (JObj {[ "result" := JStr "Organized: Hello" ]}))))))) =
               VStr "Idle") by (vm_compute; reflexivity).
  split; [exact H1 |]. split; [exact H2 |].
  destruct status_values as (_ & _ & _ & _ & _ & _ & _ & H).
  exact (H _ _ H1 H2).
Defined.

(** ** Overlapping calls *)

(** A click writes the status and the error text only, and the request of
    a handler reads neither. *)
Lemma request_after_start (h h' : handler) (s : state) :
  (start h (start h' s).1).2 = (start h s).2.
Proof. destruct h as [|[]], h' as [|[]]; reflexivity. Qed.

(** The continuation of a stage call writes the status and, on success,
    its result cell, on failure, the error text; what it does not write
    stays as the earlier continuation left it. *)
Lemma last_arrival_writes (st : stage) (s : state) (oa ob : fetch_outcome) :
  let s' := finish (Run st) ob (finish (Run st) oa s) in
  status s' = status (finish (Run st) ob s) /\
  (forall x, stage_try st ob = Return x ->
     slot st s' = x /\ status s' = VStr "Idle" /\
     error s' = error (finish (Run st) oa s)) /\
  (forall e, stage_try st ob = Throw e ->
     error s' = message e /\ status s' = VStr "Error" /\
     slot st s' = slot st (finish (Run st) oa s)).
Proof.
  intros s'. subst s'. split; [by rewrite !finish_status |]. split.
  - intros r E. by destruct (finish_Return st ob r (finish (Run st) oa s) E)
      as (H1 & H2 & H3 & _).
  - intros e E. rewrite (finish_Throw st ob e _ E).
    by destruct (catch_writes e (finish (Run st) oa s)) as (H1 & H2 & H3).
Qed.

(** C8 does not hold as stated: the answer that arrives last does not write
    every shared cell.  Of two overlapping submission calls, when the
    failing answer comes first and the successful one last, the final error
    text is the first arrival's (the last answer alone writes no error
    text); when the successful answer comes first and the failing one last,
    the final result is the first arrival's. *)
Lemma last_arrival_leaves_earlier_writes :
  let good := Responded (Response 200 (Parsed (JObj {[ "result" := JStr "two" ]}))) in
  let bad := Rejected "boom" in
  let w2 := run [Click (Run Submission); Click (Run Submission)] boot in
  let wa := run [Settle 0 bad; Settle 1 good] w2 in
  let wb := run [Settle 1 good; Settle 0 bad] w2 in
  (status (app wa) = VStr "Idle" /\ error (app wa) = "boom" /\
   error (app (run [Settle 1 good] w2)) = "" /\ error (app wa) <> "") /\
  (status (app wb) = VStr "Error" /\ submissionResult (app wb) = VStr "two" /\
   submissionResult (app (run [Settle 0 bad] w2)) = VStr "" /\
   submissionResult (app wb) <> VStr "").
Proof. vm_compute. repeat split; congruence. Qed.

(** C8, amended.  Two clicks on the same stage button with no answer in
    between put two calls in flight and issue the same request twice; when
    both answers have come, the state is the one left by the two
    continuations in the order of arrival.  The status is the one the last
    answer writes.  The result cell holds the last answer's result when
    that answer is a success, and otherwise what the first arrival left;
    the error text is the last answer's message when that answer is a
    failure, and otherwise what the first arrival left. *)
Theorem same_stage_twice_last_write_wins
    (w : session) (st : stage) (o1 o2 : fetch_outcome) :
  let n := length (sent w) in
  let w2 := run [Click (Run st); Click (Run st)] w in
  let r := (start (Run st) (app w)).2 in
  (pending w2 !! n = Some (Run st) /\
   pending w2 !! S n = Some (Run st) /\
   sent w2 = (sent w ++ [r; r])%list) /\
  app (run [Settle n o1; Settle (S n) o2] w2) =
    finish (Run st) o2 (finish (Run st) o1 (app w2)) /\
  app (run [Settle (S n) o2; Settle n o1] w2) =
    finish (Run st) o1 (finish (Run st) o2 (app w2)) /\
  (forall (s : state) (oa ob : fetch_outcome),
     let s' := finish (Run st) ob (finish (Run st) oa s) in
     status s' = status (finish (Run st) ob s) /\
     (forall x, stage_try st ob = Return x ->
        slot st s' = x /\ status s' = VStr "Idle" /\
        error s' = error (finish (Run st) oa s)) /\
     (forall e, stage_try st ob = Throw e ->
        error s' = message e /\ status s' = VStr "Error" /\
        slot st s' = slot st (finish (Run st) oa s))).
Proof.
  intros n w2 r.
  assert (Hlen : forall x, length (sent w ++ [x]) = S n).
  { intros x. rewrite length_app. simpl. subst n. lia. }
  assert (Hp : pending w2 = <[S n := Run st]> (<[n := Run st]> (pending w))).
  { subst w2. cbn -[finish start]. by rewrite Hlen. }
  assert (Hn : pending w2 !! n = Some (Run st)).
  { rewrite Hp, lookup_insert_ne by lia. apply lookup_insert_eq. }
  assert (HSn : pending w2 !! S n = Some (Run st)).
  { rewrite Hp. apply lookup_insert_eq. }
  split; [split; [exact Hn | split; [exact HSn |]] |].
  { subst w2. cbn -[finish start]. rewrite request_after_start.
    by rewrite <- app_assoc. }
  split; [| split].
  - unfold run at 1. cbn [foldl]. rewrite (step_Settle w2 n o1 _ Hn).
    erewrite step_Settle; [reflexivity |].
    cbn [pending]. rewrite lookup_delete_ne by lia. exact HSn.
  - unfold run at 1. cbn [foldl]. rewrite (step_Settle w2 (S n) o2 _ HSn).
    erewrite step_Settle; [reflexivity |].
    cbn [pending]. rewrite lookup_delete_ne by lia. exact Hn.
  - intros s oa ob. apply last_arrival_writes.
Qed.

Lemma same_stage_twice_last_write_wins_witness :
  let first := Responded (Response 200 (Parsed (JObj {[ "result" := JStr "one" ]}))) in
  let second := Rejected "boom" in
  stage_try Submission first = Return (VStr "one") /\
  (let s' := finish (Run Submission) first (finish (Run Submission) second initial) in
   slot Submission s' = VStr "one" /\ status s' = VStr "Idle" /\
   error s' = error (finish (Run Submission) second initial)).
Proof.
  split; [reflexivity |].
  destruct (same_stage_twice_last_write_wins boot Submission
              (Responded (Response 200 (Parsed (JObj {[ "result" := JStr "one" ]}))))
              (Rejected "boom"))
    as (_ & _ & _ & H).
  destruct (H initial (Rejected "boom")
              (Responded (Response 200 (Parsed (JObj {[ "result" := JStr "one" ]})))))
    as (_ & Hr & _).
  exact (Hr (VStr "one") eq_refl).
Defined.

(** Scenario 4 evaluated: two clicks, the answer to the second call comes
    first and the answer to the first call comes last; the result cell
    ends with the answer that came last. *)
Example scenario_two_calls :
  let first := Responded (Response 200 (Parsed (JObj {[ "result" := JStr "one" ]}))) in
  let second := Responded (Response 200 (Parsed (JObj {[ "result" := JStr "two" ]}))) in
  let w2 := run [Click (Run Submission); Click (Run Submission)] boot in
  length (sent w2) = 2 /\
  submissionResult (app (run [Settle 1 second; Settle 0 first] w2)) = VStr "one" /\
  submissionResult (app (run [Settle 0 first; Settle 1 second] w2)) = VStr "two".
Proof. vm_compute. done. Qed.

(** ** Bodies that are not JSON *)

(** The only exception a field read raises is the one for [null]. *)
Lemma get_Throw (data : json) (k : string) (e : js_error) :
  get data k = Throw e -> e = NullRead k.
Proof.
  destruct data; simpl; try discriminate.
  - by intros [= <-].
  - destruct (props !! k); discriminate.
Qed.

Lemma finish_handler_try (h : handler) (o : fetch_outcome) (e : js_error) (s : state) :
  handler_try h o = Throw e -> finish h o s = catch e s.
Proof.
  destruct h as [| st]; simpl; intros H.
  - unfold handleSaveKeys_finish. by rewrite H.
  - by apply finish_Throw.
Qed.

(** C9.  In the four handlers the body is parsed before the status is
    looked at: when the body is not JSON, whatever the status code, the
    exception caught is the parse error, its message becomes the error
    text, the status is "Error" and no result cell changes.  The [Error]
    that carries the service's message or the generic one is thrown only
    for a body that parsed and a status outside 200..299. *)
Theorem body_parsed_before_status (h : handler) (s : state) (code : Z) (msg : string) :
  let o := Responded (Response code (NotJson msg)) in
  handler_try h o = Throw (SyntaxError msg) /\
  error (finish h o s) = msg /\
  status (finish h o s) = VStr "Error" /\
  (forall st, slot st (finish h o s) = slot st s) /\
  (forall o' m, handler_try h o' = Throw (Error m) ->
     exists res data,
       o' = Responded res /\ resp_body res = Parsed data /\ ok res = false).
Proof.
  intros o.
  assert (E : handler_try h o = Throw (SyntaxError msg)) by (by destruct h as [|[]]).
  split; [exact E |].
  rewrite (finish_handler_try h o _ s E).
  destruct (catch_writes (SyntaxError msg) s) as (H1 & H2 & H3).
  split; [exact H2 |]. split; [exact H1 |]. split; [exact H3 |].
  intros o' m Hm. destruct o' as [m' | res].
  - destruct h as [|[]]; discriminate Hm.
  - destruct (resp_body res) as [m' | data] eqn:Hb.
    + exfalso. destruct h as [| st]; simpl in Hm;
        unfold handleSaveKeys_try, stage_try, postFormData, res_json in Hm;
        simpl in Hm; rewrite Hb in Hm; discriminate Hm.
    + exists res, data. split; [done |]. split; [done |].
      destruct (ok res) eqn:Hok; [exfalso | done].
      destruct h as [| st]; simpl in Hm.
      * unfold handleSaveKeys_try, res_json in Hm. simpl in Hm.
        rewrite Hb in Hm. simpl in Hm. rewrite Hok in Hm. simpl in Hm.
        destruct (get data "status") as [x | e] eqn:Hg; [discriminate Hm |].
        apply get_Throw in Hg. subst e. discriminate Hm.
      * rewrite (stage_try_ok st res data Hok Hb) in Hm.
        unfold result_or_empty in Hm.
        destruct (get data "result") as [x | e] eqn:Hg; [discriminate Hm |].
        apply get_Throw in Hg. subst e. discriminate Hm.
Qed.

Lemma body_parsed_before_status_witness :
  handler_try (Run Review)
    (Responded (Response 502 (Parsed (JObj ∅)))) =
    Throw (Error "Request failed: /run_review") /\
  exists res data,
    Responded (Response 502 (Parsed (JObj ∅))) = Responded res /\
    resp_body res = Parsed data /\ ok res = false.
Proof.
  split; [reflexivity |].
  destruct (body_parsed_before_status (Run Review) initial 502 "Unexpected token <")
    as (_ & _ & _ & _ & H).
  exact (H (Responded (Response 502 (Parsed (JObj ∅))))
           "Request failed: /run_review" eq_refl).
Defined.

(** A 502 page of HTML on any of the four endpoints. *)
Example scenario_html_error_page :
  let o := Responded (Response 502 (NotJson "Unexpected token <")) in
  error (handleSaveKeys_finish o initial) = "Unexpected token <" /\
  error (handleTransformSubmission_finish o initial) = "Unexpected token <" /\
  error (handleTransformChecklist_finish o initial) = "Unexpected token <" /\
  error (handleRunReview_finish o initial) = "Unexpected token <".
Proof. vm_compute. done. Qed.

(** ** Results that are missing or not strings *)

(** C10 does not hold as stated.  A 2xx answer [{result: 42}] leaves the
    number 42, not a string, in the result cell; and a 2xx answer whose
    body is the JSON value [null] has no [result] field, yet the read of
    [data.result] throws, the cell keeps its value and the status is
    "Error". *)
Lemma result_cell_not_always_string :
  let s1 := handleTransformSubmission_finish
              (Responded (Response 200 (Parsed (JObj {[ "result" := JNum "42" ]}))))
              initial in
  let s2 := handleTransformSubmission_finish
              (Responded (Response 200 (Parsed JNull)))
              (setSubmissionResult (VStr "kept") initial) in
  (status s1 = VStr "Idle" /\
   submissionResult s1 = Json (JNum "42") /\
   is_string (submissionResult s1) = false) /\
  (status s2 = VStr "Error" /\
   submissionResult s2 = VStr "kept" /\
   submissionResult s2 <> VStr "").
Proof. vm_compute. repeat split; congruence. Qed.

(** C10, amended.  For a 2xx answer whose body parses to a JSON value other
    than [null], with [v] what [data.result] reads: the status becomes
    "Idle"; when [v] is missing or falsy the result cell holds the empty
    string; when [v] is truthy the cell holds [v] as it is.  So the cell is
    never [undefined] or [null], and it is a string whenever [v] is a
    string or falsy.  Along every run each result cell holds the empty
    string or a truthy value. *)
Theorem missing_result_defaults_to_empty
    (st : stage) (s : state) (res : response) (data : json) (v : value) :
  ok res = true ->
  resp_body res = Parsed data ->
  get data "result" = Return v ->
  let s' := finish (Run st) (Responded res) s in
  status s' = VStr "Idle" /\
  (truthy v = false -> slot st s' = VStr "") /\
  (truthy v = true -> slot st s' = v) /\
  (slot st s' <> Undefined /\ slot st s' <> VNull) /\
  (is_string v = true \/ truthy v = false -> is_string (slot st s') = true) /\
  (forall evs st', settled_value (slot st' (app (run evs boot)))).
Proof.
  intros Hok Hb Hv s'.
  assert (E : stage_try st (Responded res) = Return (v ||| VStr "")).
  { rewrite (stage_try_ok st res data Hok Hb). unfold result_or_empty.
    by rewrite Hv. }
  destruct (finish_Return st _ _ s E) as (Hslot & Hst & _).
  fold s' in Hslot, Hst. rewrite Hslot. unfold js_or.
  split; [exact Hst |].
  split; [by intros -> |]. split; [by intros -> |].
  split.
  - destruct (truthy v) eqn:Ht; [| done]. split; intros ->; done.
  - split; [| intros evs st'; apply slots_settled].
    intros [Hs | Hf]; [| by rewrite Hf].
    by destruct (truthy v).
Qed.

Lemma missing_result_defaults_to_empty_witness :
  let res := Response 200 (Parsed (JObj {[ "result" := JNull ]})) in
  ok res = true /\
  resp_body res = Parsed (JObj {[ "result" := JNull ]}) /\
  get (JObj {[ "result" := JNull ]}) "result" = Return VNull /\
  status (finish (Run Review) (Responded res) initial) = VStr "Idle" /\
  slot Review (finish (Run Review) (Responded res) initial) = VStr "".
Proof.
  assert (Hg : get (JObj {[ "result" := JNull ]}) "result" = Return VNull)
    by reflexivity.
  split; [reflexivity |]. split; [reflexivity |]. split; [exact Hg |].
  destruct (missing_result_defaults_to_empty Review initial
              (Response 200 (Parsed (JObj {[ "result" := JNull ]})))
              (JObj {[ "result" := JNull ]}) VNull eq_refl eq_refl Hg)
    as (H1 & H2 & _).
  split; [exact H1 | exact (H2 eq_refl)].
Defined.

(** * Further properties of the handlers *)

(** ** What the handlers read and write *)

Lemma start_inputs (h : handler) (s : state) : inputs (start h s).1 = inputs s.
Proof. destruct h as [|[]]; reflexivity. Qed.

Lemma catch_inputs (e : js_error) (s : state) : inputs (catch e s) = inputs s.
Proof. reflexivity. Qed.

Lemma finish_inputs (h : handler) (o : fetch_outcome) (s : state) :
  inputs (finish h o s) = inputs s.
Proof.
  destruct h as [| st].
  - simpl. unfold handleSaveKeys_finish.
    destruct (handleSaveKeys_try o); reflexivity.
  - destruct (stage_try st o) as [r | e] eqn:E.
    + destruct st; simpl;
        unfold handleTransformSubmission_finish, handleTransformChecklist_finish,
          handleRunReview_finish;
        unfold stage_try in E; simpl in E; rewrite E; reflexivity.
    + by rewrite (finish_Throw st o e s E).
Qed.

Lemma onChange_inputs (e : edit) (s1 s2 : state) :
  inputs s1 = inputs s2 -> inputs (onChange e s1) = inputs (onChange e s2).
Proof.
  destruct s1, s2. unfold inputs. simpl. intros [= -> -> -> -> -> -> -> -> -> -> ->].
  destruct e; reflexivity.
Qed.

(** The request of a click is built from the inputs and, for the review,
    from the result cells; the status and the error text play no part. *)
Lemma start_request_congr (h : handler) (s1 s2 : state) :
  inputs s1 = inputs s2 ->
  (h = Run Review -> forall st, slot st s1 = slot st s2) ->
  (start h s1).2 = (start h s2).2.
Proof.
  destruct s1, s2. unfold inputs. simpl. intros [= -> -> -> -> -> -> -> -> -> -> ->] Hs.
  destruct h as [|[]]; try reflexivity.
  pose proof (Hs eq_refl Submission) as H1. pose proof (Hs eq_refl Checklist) as H2.
  simpl in H1, H2. subst. reflexivity.
Qed.

(** X1.  Clicks and answers never write an input cell: after any run of
    events the keys, texts, files, models and review overrides are those
    the edits alone produce, and so are the requests that a click on "Save
    Keys" or on a transform button would send. *)
Theorem handlers_keep_inputs (evs : list event) (w : session) (h : handler) :
  let w1 := run evs w in
  let w2 := run (List.filter is_Change evs) w in
  inputs (app w1) = inputs (app w2) /\
  (h <> Run Review -> (start h (app w1)).2 = (start h (app w2)).2).
Proof.
  intros w1 w2.
  assert (H : inputs (app w1) = inputs (app w2)).
  { subst w1 w2.
    assert (G : forall evs wa wb, inputs (app wa) = inputs (app wb) ->
                inputs (app (run evs wa)) =
                inputs (app (run (List.filter is_Change evs) wb))).
    { clear. intros evs. induction evs as [| ev evs IH]; intros wa wb Hab; [done |].
      destruct ev as [e | h | id o]; cbn -[finish start onChange run].
      - change (run (Change e :: evs) wa) with (run evs (step wa (Change e))).
        change (run (Change e :: List.filter is_Change evs) wb)
          with (run (List.filter is_Change evs) (step wb (Change e))).
        apply IH. cbn -[onChange]. by apply onChange_inputs.
      - change (run (Click h :: evs) wa) with (run evs (step wa (Click h))).
        apply IH. cbn -[start]. by rewrite start_inputs.
      - change (run (Settle id o :: evs) wa) with (run evs (step wa (Settle id o))).
        apply IH. unfold step. destruct (pending wa !! id); [| done].
        cbn -[finish]. by rewrite finish_inputs. }
    by apply G. }
  split; [exact H |].
  intros Hh. apply start_request_congr; [exact H | done].
Qed.

Lemma handlers_keep_inputs_witness :
  let evs := [Change (SubmissionText "Hello"); Click (Run Submission);
              Settle 0 (Rejected "Failed to fetch")] in
  Run Checklist <> Run Review /\
  (start (Run Checklist) (app (run evs boot))).2 =
  (start (Run Checklist) (app (run (List.filter is_Change evs) boot))).2.
Proof.
  split; [discriminate |].
  apply (handlers_keep_inputs
           [Change (SubmissionText "Hello"); Click (Run Submission);
            Settle 0 (Rejected "Failed to fetch")] boot (Run Checklist)).
  discriminate.
Defined.

Lemma onChange_outputs (e : edit) (s : state) : outputs (onChange e s) = outputs s.
Proof. destruct e; reflexivity. Qed.

Lemma start_outputs (h : handler) (s1 s2 : state) :
  outputs s1 = outputs s2 -> outputs (start h s1).1 = outputs (start h s2).1.
Proof.
  destruct s1, s2. unfold outputs. simpl. intros [= -> -> -> -> ->].
  destruct h as [|[]]; reflexivity.
Qed.

Lemma finish_outputs (h : handler) (o : fetch_outcome) (s1 s2 : state) :
  outputs s1 = outputs s2 -> outputs (finish h o s1) = outputs (finish h o s2).
Proof.
  destruct s1, s2. unfold outputs. simpl. intros [= -> -> -> -> ->].
  destruct h as [|[]]; simpl;
    unfold handleSaveKeys_finish, handleTransformSubmission_finish,
      handleTransformChecklist_finish, handleRunReview_finish;
    match goal with |- context [match ?c with Return _ => _ | Throw _ => _ end] =>
      destruct c end; reflexivity.
Qed.

(** X2.  Edits never write the status, the error text or a result cell,
    and no continuation reads an input: the status, the error text, the
    result cells, the calls in flight and the number of requests after a
    run are those of the same run with its edits removed. *)
Theorem edits_keep_outputs (evs : list event) (w : session) :
  let w1 := run evs w in
  let w2 := run (List.filter (fun ev => negb (is_Change ev)) evs) w in
  outputs (app w1) = outputs (app w2) /\
  pending w1 = pending w2 /\
  length (sent w1) = length (sent w2).
Proof.
  intros w1 w2. subst w1 w2.
  assert (G : forall evs wa wb,
            outputs (app wa) = outputs (app wb) ->
            pending wa = pending wb ->
            length (sent wa) = length (sent wb) ->
            let w1 := run evs wa in
            let w2 := run (List.filter (fun ev => negb (is_Change ev)) evs) wb in
            outputs (app w1) = outputs (app w2) /\
            pending w1 = pending w2 /\
            length (sent w1) = length (sent w2)).
  { clear. intros evs. induction evs as [| ev evs IH]; intros wa wb Ho Hp Hl; [done |].
    destruct ev as [e | h | id o]; cbn -[finish start onChange run].
    - change (run (Change e :: evs) wa) with (run evs (step wa (Change e))).
      apply IH; cbn -[onChange]; [by rewrite onChange_outputs | done | done].
    - change (run (Click h :: evs) wa) with (run evs (step wa (Click h))).
      change (run (Click h :: ?l) wb) with (run l (step wb (Click h))).
      apply IH; cbn -[start].
      + by apply start_outputs.
      + by rewrite Hp, Hl.
      + rewrite !length_app. simpl. lia.
    - change (run (Settle id o :: evs) wa) with (run evs (step wa (Settle id o))).
      change (run (Settle id o :: ?l) wb) with (run l (step wb (Settle id o))).
      apply IH; unfold step; rewrite <- Hp;
        destruct (pending wa !! id); cbn -[finish]; try done.
      by apply finish_outputs. }
  by apply G.
Qed.

(** ** Calls one after the other, and calls that overlap *)

Lemma finish_Return_eq (st : stage) (o : fetch_outcome) (r : value) (s : state) :
  stage_try st o = Return r ->
  finish (Run st) o s = setStatus (VStr "Idle") (setSlot st r s).
Proof.
  intros E. destruct st; simpl;
    unfold handleTransformSubmission_finish, handleTransformChecklist_finish,
      handleRunReview_finish;
    unfold stage_try in E; simpl in E; by rewrite E.
Qed.

(** A click followed at once by its answer. *)
Lemma perform_Call (w : session) (h : handler) (o : fetch_outcome) :
  perform w (Call h o) =
  {| app := finish h o (start h (app w)).1;
     pending := delete (length (sent w)) (pending w);
     sent := (sent w ++ [(start h (app w)).2])%list |}.
Proof.
  unfold perform.
  rewrite (step_Settle (step w (Click h)) (length (sent w)) o h).
  - cbn -[finish start]. by rewrite delete_insert_eq.
  - cbn -[finish start]. apply lookup_insert_eq.
Qed.

(** Two clicks, then the two answers in either order. *)
Lemma two_clicks_two_answers (w : session) (h1 h2 : handler) (o1 o2 : fetch_outcome) :
  let n := length (sent w) in
  let s2 := (start h2 (start h1 (app w)).1).1 in
  app (run [Click h1; Click h2; Settle n o1; Settle (S n) o2] w) =
    finish h2 o2 (finish h1 o1 s2) /\
  app (run [Click h1; Click h2; Settle (S n) o2; Settle n o1] w) =
    finish h1 o1 (finish h2 o2 s2).
Proof.
  intros n s2.
  set (w2 := step (step w (Click h1)) (Click h2)).
  assert (Hlen : forall x, length (sent w ++ [x]) = S n).
  { intros x. rewrite length_app. simpl. subst n. lia. }
  assert (Hp : pending w2 = <[S n := h2]> (<[n := h1]> (pending w))).
  { subst w2. cbn -[finish start]. by rewrite Hlen. }
  assert (Hn : pending w2 !! n = Some h1).
  { rewrite Hp, lookup_insert_ne by lia. apply lookup_insert_eq. }
  assert (HSn : pending w2 !! S n = Some h2).
  { rewrite Hp. apply lookup_insert_eq. }
  split.
  - change (run [Click h1; Click h2; Settle n o1; Settle (S n) o2] w)
      with (step (step w2 (Settle n o1)) (Settle (S n) o2)).
    rewrite (step_Settle w2 n o1 _ Hn).
    erewrite step_Settle; [reflexivity |].
    cbn [pending]. rewrite lookup_delete_ne by lia. exact HSn.
  - change (run [Click h1; Click h2; Settle (S n) o2; Settle n o1] w)
      with (step (step w2 (Settle (S n) o2)) (Settle n o1)).
    rewrite (step_Settle w2 (S n) o2 _ HSn).
    erewrite step_Settle; [reflexivity |].
    cbn [pending]. rewrite lookup_delete_ne by lia. exact Hn.
Qed.

(** X3.  A stage call answered with a success before anything else happens
    leaves the status "Idle", the error text empty (whatever error was
    shown before the click), its result cell set to the result, and the
    other result cells as they were. *)
Theorem successful_call_clears_error
    (w : session) (st : stage) (o : fetch_outcome) (r : value) :
  stage_try st o = Return r ->
  let w' := perform w (Call (Run st) o) in
  status (app w') = VStr "Idle" /\
  error (app w') = "" /\
  slot st (app w') = r /\
  (forall st', st' <> st -> slot st' (app w') = slot st' (app w)).
Proof.
  intros E w'. subst w'. rewrite perform_Call. cbn -[finish start].
  destruct (finish_Return st o r (start (Run st) (app w)).1 E) as (H1 & H2 & H3 & H4).
  split; [exact H2 |]. split; [| split; [exact H1 |]].
  - rewrite H3. by destruct st.
  - intros st' Hne. rewrite (H4 st' Hne). apply start_slot.
Qed.

Lemma successful_call_clears_error_witness :
  let o := Responded (Response 200 (Parsed (JObj {[ "result" := JStr "done" ]}))) in
  let w := perform boot (Call (Run Review) (Rejected "Failed to fetch")) in
  stage_try Review o = Return (VStr "done") /\
  error (app w) = "Failed to fetch" /\
  status (app (perform w (Call (Run Review) o))) = VStr "Idle" /\
  error (app (perform w (Call (Run Review) o))) = "".
Proof.
  assert (E : stage_try Review
                (Responded (Response 200 (Parsed (JObj {[ "result" := JStr "done" ]})))) =
              Return (VStr "done")) by reflexivity.
  split; [exact E |]. split; [reflexivity |].
  destruct (successful_call_clears_error
              (perform boot (Call (Run Review) (Rejected "Failed to fetch")))
              Review _ _ E) as (H1 & H2 & _).
  split; [exact H1 | exact H2].
Defined.

(** X4.  A success does not clear the error text; only a click does.  When
    two calls overlap and the answer that fails comes before an answer that
    succeeds, the page ends with the status "Idle" next to the error text
    of the failed call. *)
Theorem stale_error_after_overlap
    (w : session) (h : handler) (st : stage) (oa ob : fetch_outcome)
    (e : js_error) (r : value) :
  handler_try h oa = Throw e ->
  stage_try st ob = Return r ->
  let n := length (sent w) in
  let w' := run [Click h; Click (Run st); Settle n oa; Settle (S n) ob] w in
  status (app w') = VStr "Idle" /\
  error (app w') = message e /\
  slot st (app w') = r.
Proof.
  intros Ha Hb n w'.
  destruct (two_clicks_two_answers w h (Run st) oa ob) as [H _].
  fold n in H. subst w'. rewrite H.
  rewrite (finish_handler_try h oa e _ Ha).
  destruct (finish_Return st ob r
              (catch e (start (Run st) (start h (app w)).1).1) Hb)
    as (H1 & H2 & H3 & _).
  split; [exact H2 |]. split; [| exact H1].
  rewrite H3. reflexivity.
Qed.

Lemma stale_error_after_overlap_witness :
  let oa := Rejected "Failed to fetch" in
  let ob := Responded (Response 200 (Parsed (JObj {[ "result" := JStr "done" ]}))) in
  let w' := run [Click (Run Submission); Click (Run Submission);
                 Settle 0 oa; Settle 1 ob] boot in
  handler_try (Run Submission) oa = Throw (FetchFailed "Failed to fetch") /\
  stage_try Submission ob = Return (VStr "done") /\
  status (app w') = VStr "Idle" /\
  error (app w') = "Failed to fetch".
Proof.
  assert (Ea : handler_try (Run Submission) (Rejected "Failed to fetch") =
               Throw (FetchFailed "Failed to fetch")) by reflexivity.
  assert (Eb : stage_try Submission
                 (Responded (Response 200 (Parsed (JObj {[ "result" := JStr "done" ]})))) =
               Return (VStr "done")) by reflexivity.
  split; [exact Ea |]. split; [exact Eb |].
  destruct (stale_error_after_overlap boot (Run Submission) Submission _ _ _ _ Ea Eb)
    as (H1 & H2 & _).
  split; [exact H1 | exact H2].
Defined.

(** X5.  When every call is answered before the next edit or click, no
    call is left in flight and, unless the status is "Error", the error
    text is empty. *)
Theorem one_at_a_time_error_matches_status (acts : list action) :
  let w := perform_all acts boot in
  pending w = ∅ /\
  (status (app w) <> VStr "Error" -> error (app w) = "").
Proof.
  cbv zeta. unfold perform_all.
  assert (G : forall acts w,
            pending w = ∅ /\ (status (app w) <> VStr "Error" -> error (app w) = "") ->
            pending (foldl perform w acts) = ∅ /\
            (status (app (foldl perform w acts)) <> VStr "Error" ->
             error (app (foldl perform w acts)) = "")).
  { clear. intros acts. induction acts as [| a acts IH]; intros w Hw; [exact Hw |].
    simpl. apply IH. destruct Hw as [Hp He]. destruct a as [e | h o].
    - cbn -[onChange]. split; [exact Hp |].
      pose proof (onChange_outputs e (app w)) as Ho. unfold outputs in Ho.
      injection Ho as Hs Herr _ _ _. rewrite Hs, Herr. exact He.
    - rewrite perform_Call. cbn -[finish start]. split.
      + rewrite Hp. apply delete_empty.
      + assert (E0 : error (start h (app w)).1 = "") by (by destruct h as [|[]]).
        destruct (handler_try h o) as [v | e] eqn:E.
        * intros _. destruct h as [| st].
          -- simpl. simpl in E. unfold handleSaveKeys_finish. rewrite E. exact E0.
          -- destruct (finish_Return st o v (start (Run st) (app w)).1 E)
               as (_ & _ & H3 & _). rewrite H3. exact E0.
        * rewrite (finish_handler_try h o e _ E). intros Hne. by destruct Hne. }
  apply G. split; [reflexivity | intros _; reflexivity].
Qed.

Lemma one_at_a_time_error_matches_status_witness :
  let acts := [Call (Run Submission) (Rejected "Failed to fetch");
               Call SaveKeys (Responded (Response 200 (Parsed (JObj ∅))))] in
  status (app (perform_all acts boot)) <> VStr "Error" /\
  error (app (perform_all acts boot)) = "".
Proof.
  assert (H : status (app (perform_all
                [Call (Run Submission) (Rejected "Failed to fetch");
                 Call SaveKeys (Responded (Response 200 (Parsed (JObj ∅))))] boot)) <>
              VStr "Error") by (vm_compute; discriminate).
  split; [exact H |].
  exact (proj2 (one_at_a_time_error_matches_status _) H).
Defined.

Lemma start_start (h : handler) (s : state) : (start h (start h s).1).1 = (start h s).1.
Proof. destruct h as [|[]]; reflexivity. Qed.

Lemma setSlot_absorb (st : stage) (r2 v : value) (s1 s2 : state) :
  inputs s1 = inputs s2 -> error s1 = error s2 ->
  (forall st', st' <> st -> slot st' s1 = slot st' s2) ->
  setStatus v (setSlot st r2 s1) = setStatus v (setSlot st r2 s2).
Proof.
  destruct s1, s2. unfold inputs. simpl.
  intros [= -> -> -> -> -> -> -> -> -> -> ->] -> Hs.
  destruct st.
  - pose proof (Hs Checklist ltac:(discriminate)) as H1.
    pose proof (Hs Review ltac:(discriminate)) as H2. simpl in *. by subst.
  - pose proof (Hs Submission ltac:(discriminate)) as H1.
    pose proof (Hs Review ltac:(discriminate)) as H2. simpl in *. by subst.
  - pose proof (Hs Submission ltac:(discriminate)) as H1.
    pose proof (Hs Checklist ltac:(discriminate)) as H2. simpl in *. by subst.
Qed.

(** X6.  When the same stage button is clicked twice and both answers are
    successes, the answer that comes first leaves no trace: the state is
    the one a single click answered by the last answer would have left. *)
Theorem first_success_leaves_no_trace
    (w : session) (st : stage) (oa ob : fetch_outcome) (ra rb : value) :
  stage_try st oa = Return ra ->
  stage_try st ob = Return rb ->
  let n := length (sent w) in
  app (run [Click (Run st); Click (Run st); Settle n oa; Settle (S n) ob] w) =
    app (perform w (Call (Run st) ob)) /\
  app (run [Click (Run st); Click (Run st); Settle (S n) ob; Settle n oa] w) =
    app (perform w (Call (Run st) oa)).
Proof.
  intros Ha Hb n.
  destruct (two_clicks_two_answers w (Run st) (Run st) oa ob) as [H1 H2].
  fold n in H1, H2. rewrite H1, H2, !perform_Call. cbn -[finish start].
  rewrite start_start.
  rewrite !(finish_Return_eq st oa ra), !(finish_Return_eq st ob rb) by done.
  split;
    (apply setSlot_absorb;
     [by destruct st | by destruct st | intros st' Hne; by destruct st, st']).
Qed.

Lemma first_success_leaves_no_trace_witness :
  let oa := Responded (Response 200 (Parsed (JObj {[ "result" := JStr "one" ]}))) in
  let ob := Responded (Response 200 (Parsed (JObj {[ "result" := JStr "two" ]}))) in
  stage_try Checklist oa = Return (VStr "one") /\
  stage_try Checklist ob = Return (VStr "two") /\
  app (run [Click (Run Checklist); Click (Run Checklist); Settle 0 oa; Settle 1 ob] boot) =
  app (perform boot (Call (Run Checklist) ob)).
Proof.
  assert (Ea : stage_try Checklist
                 (Responded (Response 200 (Parsed (JObj {[ "result" := JStr "one" ]})))) =
               Return (VStr "one")) by reflexivity.
  assert (Eb : stage_try Checklist
                 (Responded (Response 200 (Parsed (JObj {[ "result" := JStr "two" ]})))) =
               Return (VStr "two")) by reflexivity.
  split; [exact Ea |]. split; [exact Eb |].
  exact (proj1 (first_success_leaves_no_trace boot Checklist _ _ _ _ Ea Eb)).
Defined.

(** X7.  Calls of two different stages that overlap and both succeed leave
    the same state whichever answer comes first: each result cell holds its
    own stage's result and the status is "Idle". *)
Theorem different_stages_commute
    (w : session) (st1 st2 : stage) (o1 o2 : fetch_outcome) (r1 r2 : value) :
  st1 <> st2 ->
  stage_try st1 o1 = Return r1 ->
  stage_try st2 o2 = Return r2 ->
  let n := length (sent w) in
  let wa := run [Click (Run st1); Click (Run st2); Settle n o1; Settle (S n) o2] w in
  let wb := run [Click (Run st1); Click (Run st2); Settle (S n) o2; Settle n o1] w in
  app wa = app wb /\
  slot st1 (app wa) = r1 /\ slot st2 (app wa) = r2 /\
  status (app wa) = VStr "Idle" /\ error (app wa) = "".
Proof.
  intros Hne H1 H2 n wa wb.
  destruct (two_clicks_two_answers w (Run st1) (Run st2) o1 o2) as [Ea Eb].
  fold n in Ea, Eb. subst wa wb. rewrite Ea, Eb.
  rewrite !(finish_Return_eq st1 o1 r1), !(finish_Return_eq st2 o2 r2) by done.
  destruct st1, st2; try done; repeat split.
Qed.

Lemma different_stages_commute_witness :
  let o1 := Responded (Response 200 (Parsed (JObj {[ "result" := JStr "S" ]}))) in
  let o2 := Responded (Response 201 (Parsed (JObj {[ "result" := JStr "C" ]}))) in
  Submission <> Checklist /\
  stage_try Submission o1 = Return (VStr "S") /\
  stage_try Checklist o2 = Return (VStr "C") /\
  app (run [Click (Run Submission); Click (Run Checklist); Settle 0 o1; Settle 1 o2] boot) =
  app (run [Click (Run Submission); Click (Run Checklist); Settle 1 o2; Settle 0 o1] boot).
Proof.
  assert (E1 : stage_try Submission
                 (Responded (Response 200 (Parsed (JObj {[ "result" := JStr "S" ]})))) =
               Return (VStr "S")) by reflexivity.
  assert (E2 : stage_try Checklist
                 (Responded (Response 201 (Parsed (JObj {[ "result" := JStr "C" ]})))) =
               Return (VStr "C")) by reflexivity.
  assert (Hne : Submission <> Checklist) by discriminate.
  split; [exact Hne |]. split; [exact E1 |]. split; [exact E2 |].
  exact (proj1 (different_stages_commute boot Submission Checklist _ _ _ _ Hne E1 E2)).
Defined.

(** ** From the transforms to the review *)

Lemma stage_try_settled (st : stage) (o : fetch_outcome) (r : value) :
  stage_try st o = Return r -> settled_value r.
Proof.
  unfold stage_try. destruct (postFormData (endpoint st) o) as [data |]; [| done].
  simpl. unfold result_or_empty. destruct (get data "result") as [v |]; [| done].
  simpl. intros [= <-]. apply settled_value_or.
Qed.

(** X8.  After a successful submission transform and a successful checklist
    transform, a review with both override fields empty sends exactly the
    two results just stored, followed by the review model. *)
Theorem results_carried_to_review
    (w : session) (o1 o2 : fetch_outcome) (r1 r2 : value) :
  stage_try Submission o1 = Return r1 ->
  stage_try Checklist o2 = Return r2 ->
  let w' := perform_all
              [Call (Run Submission) o1; Call (Run Checklist) o2;
               Edit (ReviewSubmission ""); Edit (ReviewChecklist "")] w in
  form_of (start (Run Review) (app w')).2 =
    [("submission", r1); ("checklist", r2); ("model", VStr (reviewModel (app w)))].
Proof.
  intros H1 H2 w'. subst w'. unfold perform_all. cbn [foldl].
  rewrite !perform_Call. cbn -[finish start].
  rewrite (finish_Return_eq Checklist o2 r2), (finish_Return_eq Submission o1 r1) by done.
  destruct (settled_not_nullish r1 (stage_try_settled _ _ _ H1)) as [Hu1 Hn1].
  destruct (settled_not_nullish r2 (stage_try_settled _ _ _ H2)) as [Hu2 Hn2].
  simpl. unfold handleRunReview_start. simpl. rewrite buildFormData_filter.
  unfold js_or. simpl. rewrite Hu1, Hn1, Hu2, Hn2. reflexivity.
Qed.

Lemma results_carried_to_review_witness :
  let o1 := Responded (Response 200 (Parsed (JObj {[ "result" := JStr "S" ]}))) in
  let o2 := Responded (Response 200 (Parsed (JObj {[ "result" := JStr "C" ]}))) in
  stage_try Submission o1 = Return (VStr "S") /\
  stage_try Checklist o2 = Return (VStr "C") /\
  form_of (start (Run Review)
             (app (perform_all
                     [Call (Run Submission) o1; Call (Run Checklist) o2;
                      Edit (ReviewSubmission ""); Edit (ReviewChecklist "")] boot))).2 =
    [("submission", VStr "S"); ("checklist", VStr "C");
     ("model", VStr (reviewModel (app boot)))].
Proof.
  assert (E1 : stage_try Submission
                 (Responded (Response 200 (Parsed (JObj {[ "result" := JStr "S" ]})))) =
               Return (VStr "S")) by reflexivity.
  assert (E2 : stage_try Checklist
                 (Responded (Response 200 (Parsed (JObj {[ "result" := JStr "C" ]})))) =
               Return (VStr "C")) by reflexivity.
  split; [exact E1 |]. split; [exact E2 |].
  exact (results_carried_to_review boot _ _ _ _ E1 E2).
Defined.

(** X9.  A call that ends in the [catch] block changes no later request:
    whatever button is clicked next sends what it would have sent had the
    failed call never been made. *)
Theorem failed_call_changes_no_request
    (w : session) (h h' : handler) (o : fetch_outcome) (e : js_error) :
  handler_try h o = Throw e ->
  (start h' (app (perform w (Call h o)))).2 = (start h' (app w)).2.
Proof.
  intros E. rewrite perform_Call. cbn -[finish start].
  rewrite (finish_handler_try h o e _ E).
  apply start_request_congr.
  - rewrite catch_inputs. apply start_inputs.
  - intros _ st. destruct (catch_writes e (start h (app w)).1) as (_ & _ & Hs).
    rewrite Hs. apply start_slot.
Qed.

Lemma failed_call_changes_no_request_witness :
  let w := perform boot
             (Call (Run Submission)
                (Responded (Response 200 (Parsed (JObj {[ "result" := JStr "S" ]}))))) in
  let o := Responded (Response 500 (Parsed (JObj ∅))) in
  handler_try (Run Submission) o =
    Throw (Error "Request failed: /transform_submission") /\
  (start (Run Review) (app (perform w (Call (Run Submission) o)))).2 =
  (start (Run Review) (app w)).2.
Proof.
  assert (E : handler_try (Run Submission)
                (Responded (Response 500 (Parsed (JObj ∅)))) =
              Throw (Error "Request failed: /transform_submission")) by reflexivity.
  split; [exact E |].
  exact (failed_call_changes_no_request _ (Run Submission) (Run Review) _ _ E).
Defined.

(** ** [buildFormData] *)



(** ** The file inputs *)

(** X11.  A file input keeps the first file of the selection and nothing
    else; with no selection (no list, or an empty one) the file cell is
    reset to [null], and the next transform request then has no [file]
    field. *)
Theorem file_input_keeps_first_file (s : state) (files : option (list file)) :
  let picked := match files with Some (f :: _) => Some f | _ => None end in
  let sent_file := match picked with Some f => [("file", Blob f)] | None => [] end in
  files_0_or_null files = picked /\
  form_of (handleTransformSubmission_start
             (onChange (SubmissionFile (files_0_or_null files)) s)).2 =
    ([("pasted", VStr (submissionText s)); ("model", VStr (submissionModel s))]
     ++ sent_file)%list /\
  form_of (handleTransformChecklist_start
             (onChange (ChecklistFile (files_0_or_null files)) s)).2 =
    ([("pasted", VStr (checklistText s)); ("model", VStr (checklistModel s))]
     ++ sent_file)%list.
Proof.
  intros picked sent_file.
  assert (E : files_0_or_null files = picked) by (by destruct files as [[| f l] |]).
  split; [exact E |]. rewrite E.
  unfold handleTransformSubmission_start, handleTransformChecklist_start. simpl.
  rewrite !buildFormData_filter. subst sent_file.
  destruct picked; split; reflexivity.
Qed.

(** ** The status line *)

(** X12.  Whatever the service answers, after any run of events the status
    cell holds a truthy value: never [undefined], [null], [false], [0] or
    the empty string. *)
Theorem status_always_truthy (evs : list event) :
  let v := status (app (run evs boot)) in
  truthy v = true /\
  v <> Undefined /\ v <> VNull /\ v <> VStr "" /\
  v <> Json (JBool false) /\ v <> Json (JNum "0").
Proof.
  cbv zeta.
  assert (H : truthy (status (app (run evs boot))) = true).
  { apply (run_invariant (fun w => truthy (status (app w)) = true)); [| reflexivity].
    intros w ev IH. destruct ev as [e | h | id o]; cbn -[finish start onChange].
    - by rewrite onChange_status.
    - by destruct h as [|[]].
    - destruct (pending w !! id) as [[| st] |]; cbn -[finish]; [| | exact IH].
      + simpl. rewrite saveKeys_finish_status.
        destruct o as [m | res]; [done |].
        destruct (resp_body res) as [m | data]; [done |].
        destruct (ok res); [| done].
        destruct (get data "status") as [x |]; [| done].
        unfold js_or. by destruct (truthy x) eqn:Hx.
      + rewrite finish_status. by destruct (stage_try st o). }
  split; [exact H |].
  repeat split; intros E; rewrite E in H; discriminate H.
Qed.

(** ** The painter tiles *)

Lemma painter_className_selected (sel p : string) :
  String.eqb (painter_className sel p) "painter painter-selected" = String.eqb p sel.
Proof. unfold painter_className. by destruct (String.eqb p sel). Qed.

Lemma selected_tiles_count (sel : string) (l : list string) :
  NoDup l ->
  length (List.filter (fun c => String.eqb c "painter painter-selected")
            (map (painter_className sel) l)) =
  if decide (sel ∈ l) then 1 else 0.
Proof.
  induction 1 as [| p l Hp Hl IH]; cbn [map List.filter].
  - rewrite decide_False; [done | apply not_elem_of_nil].
  - rewrite painter_className_selected.
    destruct (String.eqb p sel) eqn:E.
    + apply String.eqb_eq in E. subst p. cbn [length]. rewrite IH.
      rewrite (decide_False (P := sel ∈ l)) by done.
      rewrite decide_True by apply list_elem_of_here. done.
    + apply String.eqb_neq in E. rewrite IH.
      destruct (decide (sel ∈ l)) as [H1 | H1].
      * rewrite decide_True; [done | by apply list_elem_of_further].
      * rewrite decide_False; [done |].
        intros H2. apply elem_of_cons in H2 as [-> | H2]; done.
Qed.

(** X13.  One tile is rendered per painter, and the tiles marked as
    selected are exactly one when the selected name is one of the painters
    (as after a click on a tile) and none otherwise. *)
Theorem one_painter_tile_selected (selectedPainter : string) :
  length (painter_tiles selectedPainter) = length PAINTERS /\
  length (List.filter (fun c => String.eqb c "painter painter-selected")
            (painter_tiles selectedPainter)) =
  (if decide (selectedPainter ∈ PAINTERS) then 1 else 0) /\
  (forall c, c ∈ painter_tiles selectedPainter ->
     c = "painter" \/ c = "painter painter-selected").
Proof.
  split; [apply length_map |]. split.
  - apply selected_tiles_count. apply (bool_decide_unpack _). by vm_compute.
  - intros c Hc. unfold painter_tiles in Hc.
    apply list_elem_of_In in Hc. apply in_map_iff in Hc.
    destruct Hc as (p & <- & _).
    unfold painter_className. destruct (String.eqb p selectedPainter); [by right | by left].
Qed.
